(** * OrionPlus motion core: MachineCore and StepTicker

    A shallow embedding of [Sources/App/Src/MachineCore.cpp] and of the
    [StepTicker] class declaration (the header text that follows
    [Init_GPIO_Pins] in [Sources/App/Src/gpio.cpp]).

    C++ member functions become computations in a small state monad over
    the object they belong to; a call on a member object
    ([m_step_ticker->f()]) runs the callee on that field of the caller. *)

From Stdlib Require Import ZArith List Bool Lia QArith.
Import ListNotations.
Open Scope Z_scope.

Set Implicit Arguments.

(** ** A state monad for member functions *)

Module St.

Definition M (S A : Type) : Type := S -> A * S.

Definition ret {S A} (a : A) : M S A := fun s => (a, s).

Definition bind {S A B} (c : M S A) (k : A -> M S B) : M S B :=
  fun s => let (a, s') := c s in k a s'.

Definition gets {S A} (f : S -> A) : M S A := fun s => (f s, s).

Definition modify {S} (f : S -> S) : M S unit := fun s => (tt, f s).

(** Run a member function of a sub-object held in a field of [S]. *)
Definition zoom {S T A} (proj : S -> T) (upd : T -> S -> S) (c : M T A) : M S A :=
  fun s => let (a, t) := c (proj s) in (a, upd t s).

Definition result {S A} (c : M S A) (s : S) : A := fst (c s).
Definition after {S A} (c : M S A) (s : S) : S := snd (c s).

End St.

Declare Scope member_scope.
Delimit Scope member_scope with member.
Notation "x <- c ;; k" := (St.bind c (fun x => k))
  (at level 61, c at next level, right associativity) : member_scope.
Notation "c ;; k" := (St.bind c (fun _ => k))
  (at level 61, right associativity) : member_scope.
Open Scope member_scope.

(** ** Machine integers *)

(** Conversion to [uint8_t] / [uint32_t]: reduction modulo 2^8 / 2^32. *)
Definition to_uint8 (x : Z) : Z := x mod 2 ^ 8.
Definition to_uint32 (x : Z) : Z := x mod 2 ^ 32.
(** Conversion to [long long] (64-bit two's complement). *)
Definition to_int64 (x : Z) : Z := (x + 2 ^ 63) mod 2 ^ 64 - 2 ^ 63.

Definition is_uint8 (x : Z) : Prop := 0 <= x < 2 ^ 8.
Definition is_int64 (x : Z) : Prop := - 2 ^ 63 <= x < 2 ^ 63.

(** A C [float] is only stored and handed back by the code modelled here;
    it is kept as its 32-bit IEEE-754 pattern. *)
Definition float32 : Type := Z.

(** [Block *]: the address of a Block slot owned by the Conveyor, or
    [None] for the null pointer. *)
Definition BlockPtr : Type := option Z.

(** ** StepTicker *)

Module StepTicker.

(** [#define STEPTICKER_FPSCALE (1LL<<62)] *)
Definition STEPTICKER_FPSCALE : Z := to_int64 (Z.shiftl 1 62).

Section FromFP.
(** [(float)(x)]: the value of the [float] nearest to the integer [x];
    the rounding is left open. *)
Variable float_of_int64 : Z -> Q.

(** [#define STEPTICKER_FROMFP(x) ((float)(x)/STEPTICKER_FPSCALE)].  The
    divisor is a power of two that a [float] holds exactly and the
    quotient of a non-zero 64-bit integer stays far above the smallest
    normal [float], so the division itself does not round: the quotient
    is taken in the rationals. *)
Definition STEPTICKER_FROMFP (x : Z) : Q :=
  (float_of_int64 x / inject_Z STEPTICKER_FPSCALE)%Q.
End FromFP.

(** The two output lines to the stepper driver chips, configured as
    push-pull outputs in [Init_GPIO_Pins] (STEP_ENABLE on PC9, STEP_RESET
    on PG7).  They are recorded by what they mean for the drivers, not by
    pin level. *)
Record DriverLines : Type := mkDriverLines {
  drivers_enabled : bool;
  drivers_in_reset : bool
}.

(** The private members of [class StepTicker], in declaration order, with
    the driver lines the object commands.  [m_conveyor] is a pointer to the
    Conveyor owned by MachineCore and is kept there. *)
Record t : Type := mk {
  frequency : float32;
  period : Z;
  inversion_mask_bits_steps : Z;
  inversion_mask_bits_dirs : Z;
  unstep_bits : Z;
  motor_enable_bits : Z;
  current_block : BlockPtr;
  current_tick : Z;
  running : bool;
  lines : DriverLines
}.

Definition set_motor_enable_bits (v : Z) (s : t) : t :=
  mk (frequency s) (period s) (inversion_mask_bits_steps s)
     (inversion_mask_bits_dirs s) (unstep_bits s) v
     (current_block s) (current_tick s) (running s) (lines s).

Definition set_lines (l : DriverLines) (s : t) : t :=
  mk (frequency s) (period s) (inversion_mask_bits_steps s)
     (inversion_mask_bits_dirs s) (unstep_bits s) (motor_enable_bits s)
     (current_block s) (current_tick s) (running s) l.

(** [float get_frequency() const { return frequency; }] *)
Definition get_frequency : St.M t float32 := St.gets frequency.

(** [const Block *get_current_block() const { return current_block; }] *)
Definition get_current_block : St.M t BlockPtr := St.gets current_block.

(** [inline void EnableMotor(uint8_t axis)
      { this->motor_enable_bits |= (1 << axis); }]
    Both operands are promoted to [int]; the result is stored back into a
    [uint8_t].  The shift is defined in C++ for [axis] below the width of
    [int]; the axes of the machine are far below that. *)
Definition EnableMotor (axis : Z) : St.M t unit :=
  St.modify (fun s =>
    set_motor_enable_bits
      (to_uint8 (Z.lor (motor_enable_bits s) (Z.shiftl 1 axis))) s).

(** [inline void DisableMotor(uint8_t axis)
      { this->motor_enable_bits &= (~(1 << axis)); }] *)
Definition DisableMotor (axis : Z) : St.M t unit :=
  St.modify (fun s =>
    set_motor_enable_bits
      (to_uint8 (Z.land (motor_enable_bits s) (Z.lnot (Z.shiftl 1 axis)))) s).

(** [inline void DisableAllMotors() { this->motor_enable_bits = 0; }] *)
Definition DisableAllMotors : St.M t unit :=
  St.modify (set_motor_enable_bits 0).

(** [inline bool AreMotorsStillMoving()
      { return (this->motor_enable_bits != 0) ? true : false; }] *)
Definition AreMotorsStillMoving : St.M t bool :=
  bits <- St.gets motor_enable_bits ;;
  St.ret (if negb (bits =? 0) then true else false).

(** Modelled from the spec: the body of [EnableStepperDrivers] is in
    StepTicker.cpp, which is not among the sources.  The spec describes it
    as "direct hardware-enable control": it drives the driver-enable
    line.  Of [motor_enable_bits] the spec's data model says that it
    "persists across blocks until idle timeout disables it", and the
    idle timeout does nothing but call [EnableStepperDrivers(false)]: so
    disabling the drivers also clears [motor_enable_bits].  Enabling
    leaves the bits to [EnableMotor]. *)
Definition EnableStepperDrivers (enable : bool) : St.M t unit :=
  St.modify (fun s =>
    let s' := set_lines (mkDriverLines enable (drivers_in_reset (lines s))) s in
    if enable then s' else set_motor_enable_bits 0 s').

(** Modelled from the spec: the body of [ResetStepperDrivers] is in
    StepTicker.cpp as well; it is the same kind of direct hardware
    control, applied to the driver-reset line. *)
Definition ResetStepperDrivers (reset : bool) : St.M t unit :=
  St.modify (fun s =>
    set_lines (mkDriverLines (drivers_enabled (lines s)) reset) s).

End StepTicker.

(** ** Conveyor *)

Module Conveyor.

Section Queue.
Variable Block : Type.

(** Modelled from the spec: Conveyor.h/.cpp are not among the sources.
    The spec gives the Conveyor as a bounded FIFO of Blocks (a ring
    buffer whose capacity is fixed at configuration time), so its state
    is the capacity and the queued Blocks in execution order, front
    first. *)
Record t : Type := mk {
  capacity : nat;
  queue : list Block
}.

(** Modelled from the spec: [flush_queue()] "empties the queue
    immediately". *)
Definition flush_queue : St.M t unit :=
  St.modify (fun c => mk (capacity c) []).

End Queue.

End Conveyor.

(** ** FreeRTOS and HAL vocabulary used by MachineCore *)

(** [BaseType_t] and [pdFALSE], which FreeRTOS defines as 0. *)
Definition BaseType_t : Type := Z.
Definition pdFALSE : BaseType_t := 0.

(** [GPIO_PinState], the result of [HAL_GPIO_ReadPin]. *)
Inductive GPIO_PinState : Type := GPIO_PIN_RESET | GPIO_PIN_SET.

Definition GPIO_PinState_eqb (a b : GPIO_PinState) : bool :=
  match a, b with
  | GPIO_PIN_RESET, GPIO_PIN_RESET | GPIO_PIN_SET, GPIO_PIN_SET => true
  | _, _ => false
  end.

(** An event group is its word of event bits ([EventBits_t]);
    [xEventGroupSetBits] ors the given bits into it. *)
Definition EventBits_t : Type := Z.
Definition xEventGroupSetBits (bits : EventBits_t) : St.M EventBits_t unit :=
  St.modify (fun g => Z.lor g bits).

(** A fixed-size C array indexed by constants. *)
Definition array_get (i : nat) (a : list Z) : Z := nth i a 0.

Fixpoint array_set (i : nat) (v : Z) (a : list Z) : list Z :=
  match a, i with
  | [], _ => []
  | _ :: r, O => v :: r
  | x :: r, S j => x :: array_set j v r
  end.

(** ** MachineCore *)

Module MachineCore.

(** Collaborators whose classes are not among the sources, and the
    constants of pins.h and MachineCore.h.  Nothing is assumed about them:
    the state types, the member functions that MachineCore calls and the
    constants are left arbitrary. *)
Class Externals : Type := {
  Block : Type;
  GCodeParser : Type;
  Planner : Type;
  CoolantController : Type;
  SpindleController : Type;
  SpindleController_InmediateStop : St.M SpindleController unit;
  CoolantController_Stop : St.M CoolantController unit;
  Conveyor_on_idle : St.M (Conveyor.t Block) unit;
  BTN_START_Pin : Z;
  BTN_HOLD_Pin : Z;
  BTN_ABORT_Pin : Z;
  BTN_START_EVENT : EventBits_t;
  BTN_HOLD_EVENT : EventBits_t;
  BTN_ABORT_EVENT : EventBits_t;
  GCODE_SOURCE_SERIAL_CONSOLE : Z
}.

Section Core.
Context {X : Externals}.

(** The members that the constructor initialises, in that order.  The
    timer handles are left out: they name FreeRTOS timers, which live in
    the kernel. *)
Record t : Type := mk {
  m_startup_finished : bool;
  m_system_halted : bool;
  m_feed_hold : bool;
  m_axes_homing_now : Z;
  m_axes_already_homed : Z;
  m_gcode_source : Z;
  m_gcode_parser : GCodeParser;
  m_planner : Planner;
  m_conveyor : Conveyor.t Block;
  m_step_ticker : StepTicker.t;
  m_coolant : CoolantController;
  m_spindle : SpindleController;
  m_input_events_group : EventBits_t
}.

Definition set_startup_finished (v : bool) (m : t) : t :=
  mk v (m_system_halted m) (m_feed_hold m) (m_axes_homing_now m)
     (m_axes_already_homed m) (m_gcode_source m) (m_gcode_parser m)
     (m_planner m) (m_conveyor m) (m_step_ticker m) (m_coolant m)
     (m_spindle m) (m_input_events_group m).

Definition set_system_halted (v : bool) (m : t) : t :=
  mk (m_startup_finished m) v (m_feed_hold m) (m_axes_homing_now m)
     (m_axes_already_homed m) (m_gcode_source m) (m_gcode_parser m)
     (m_planner m) (m_conveyor m) (m_step_ticker m) (m_coolant m)
     (m_spindle m) (m_input_events_group m).

Definition set_conveyor (v : Conveyor.t Block) (m : t) : t :=
  mk (m_startup_finished m) (m_system_halted m) (m_feed_hold m)
     (m_axes_homing_now m) (m_axes_already_homed m) (m_gcode_source m)
     (m_gcode_parser m) (m_planner m) v (m_step_ticker m) (m_coolant m)
     (m_spindle m) (m_input_events_group m).

Definition set_step_ticker (v : StepTicker.t) (m : t) : t :=
  mk (m_startup_finished m) (m_system_halted m) (m_feed_hold m)
     (m_axes_homing_now m) (m_axes_already_homed m) (m_gcode_source m)
     (m_gcode_parser m) (m_planner m) (m_conveyor m) v (m_coolant m)
     (m_spindle m) (m_input_events_group m).

Definition set_coolant (v : CoolantController) (m : t) : t :=
  mk (m_startup_finished m) (m_system_halted m) (m_feed_hold m)
     (m_axes_homing_now m) (m_axes_already_homed m) (m_gcode_source m)
     (m_gcode_parser m) (m_planner m) (m_conveyor m) (m_step_ticker m) v
     (m_spindle m) (m_input_events_group m).

Definition set_spindle (v : SpindleController) (m : t) : t :=
  mk (m_startup_finished m) (m_system_halted m) (m_feed_hold m)
     (m_axes_homing_now m) (m_axes_already_homed m) (m_gcode_source m)
     (m_gcode_parser m) (m_planner m) (m_conveyor m) (m_step_ticker m)
     (m_coolant m) v (m_input_events_group m).

Definition set_input_events_group (v : EventBits_t) (m : t) : t :=
  mk (m_startup_finished m) (m_system_halted m) (m_feed_hold m)
     (m_axes_homing_now m) (m_axes_already_homed m) (m_gcode_source m)
     (m_gcode_parser m) (m_planner m) (m_conveyor m) (m_step_ticker m)
     (m_coolant m) (m_spindle m) v.

(** Calls through the member pointers. *)
Definition on_conveyor {A} : St.M (Conveyor.t Block) A -> St.M t A :=
  St.zoom m_conveyor set_conveyor.
Definition on_step_ticker {A} : St.M StepTicker.t A -> St.M t A :=
  St.zoom m_step_ticker set_step_ticker.
Definition on_coolant {A} : St.M CoolantController A -> St.M t A :=
  St.zoom m_coolant set_coolant.
Definition on_spindle {A} : St.M SpindleController A -> St.M t A :=
  St.zoom m_spindle set_spindle.
Definition on_input_events_group {A} : St.M EventBits_t A -> St.M t A :=
  St.zoom m_input_events_group set_input_events_group.

(** [MachineCore::MachineCore]: the flags and masks it sets, around the
    objects it creates (given here as they come out of their own
    constructors) and the fresh, empty event group.  The Associate calls
    only hand out pointers to these objects, and the three timers are
    created inside the kernel. *)
Definition create (parser : GCodeParser) (planner : Planner)
    (conveyor : Conveyor.t Block) (ticker : StepTicker.t)
    (coolant : CoolantController) (spindle : SpindleController) : t :=
  mk false false false 0 0 GCODE_SOURCE_SERIAL_CONSOLE
     parser planner conveyor ticker coolant spindle 0.

(** [void MachineCore::OnIdle()] *)
Definition OnIdle : St.M t unit :=
  finished <- St.gets m_startup_finished ;;
  if Bool.eqb finished false then St.ret tt
  else on_conveyor Conveyor_on_idle.

(** [void MachineCore::Halt()] *)
Definition Halt : St.M t unit :=
  St.modify (set_system_halted true) ;;
  on_spindle SpindleController_InmediateStop ;;
  on_coolant CoolantController_Stop ;;
  on_step_ticker (StepTicker.EnableStepperDrivers false) ;;
  on_step_ticker StepTicker.DisableAllMotors ;;
  on_conveyor (@Conveyor.flush_queue Block).

(** [BaseType_t MachineCore::NotifyOfEvent(uint32_t it_evt_src)], called
    from the EXTI interrupt.  [GLOBAL_FAULT] and [LIM_X] are what the two
    [HAL_GPIO_ReadPin] calls return.  Every branch body of the source
    is a comment, hence the empty branches. *)
Definition NotifyOfEvent (it_evt_src : Z) (GLOBAL_FAULT LIM_X : GPIO_PinState)
    : St.M t BaseType_t :=
  (if negb (Z.land it_evt_src (Z.shiftl 1 6) =? 0) then
     if negb (GPIO_PinState_eqb GLOBAL_FAULT GPIO_PIN_SET) then St.ret tt
     else if negb (GPIO_PinState_eqb LIM_X GPIO_PIN_RESET) then St.ret tt
     else St.ret tt
   else St.ret tt) ;;
  (if negb (Z.land it_evt_src (Z.shiftl 1 7) =? 0) then St.ret tt
   else St.ret tt) ;;
  (if negb (Z.land it_evt_src (Z.shiftl 1 8) =? 0) then St.ret tt
   else St.ret tt) ;;
  St.ret pdFALSE.

(** [void MachineCore::steppers_idle_timeout_callback(TimerHandle_t)],
    on the instance stored as the timer's ID. *)
Definition steppers_idle_timeout_callback : St.M t unit :=
  on_step_ticker (StepTicker.EnableStepperDrivers false).

(** [void MachineCore::delayed_startup_callback(TimerHandle_t)].  The
    closing [xTimerDelete] frees the one-shot timer inside the kernel
    and leaves the instance alone. *)
Definition delayed_startup_callback : St.M t unit :=
  on_step_ticker (StepTicker.ResetStepperDrivers false) ;;
  St.modify (set_startup_finished true).

(** What [read_user_buttons_callback] works on: the instance and its own
    function-static [debounce_cntrs[3]]. *)
Record ButtonPoll : Type := mkButtonPoll {
  instance : t;
  debounce_cntrs : list Z
}.

Definition set_instance (v : t) (p : ButtonPoll) : ButtonPoll :=
  mkButtonPoll v (debounce_cntrs p).
Definition set_debounce_cntr (i : nat) (v : Z) (p : ButtonPoll) : ButtonPoll :=
  mkButtonPoll (instance p) (array_set i v (debounce_cntrs p)).

Definition on_instance {A} : St.M t A -> St.M ButtonPoll A :=
  St.zoom instance set_instance.

(** [void MachineCore::read_user_buttons_callback(TimerHandle_t)].  The
    three arguments are the values read from the [IDR] register of the
    start, hold and abort button ports. *)
Definition read_user_buttons_callback (START_IDR HOLD_IDR ABORT_IDR : Z)
    : St.M ButtonPoll unit :=
  finished <- St.gets (fun p => m_startup_finished (instance p)) ;;
  if Bool.eqb finished false then St.ret tt
  else
    (if Z.land START_IDR BTN_START_Pin =? 0 then
       c <- St.gets (fun p => array_get 0 (debounce_cntrs p)) ;;
       if c <? 2 then St.modify (set_debounce_cntr 0 (to_uint32 (c + 1)))
       else
         on_instance (on_input_events_group (xEventGroupSetBits BTN_START_EVENT)) ;;
         St.modify (set_debounce_cntr 0 0)
     else St.ret tt) ;;
    (if Z.land HOLD_IDR BTN_HOLD_Pin =? 0 then
       c <- St.gets (fun p => array_get 1 (debounce_cntrs p)) ;;
       if c <? 2 then St.modify (set_debounce_cntr 1 (to_uint32 (c + 1)))
       else
         on_instance (on_input_events_group (xEventGroupSetBits BTN_HOLD_EVENT)) ;;
         St.modify (set_debounce_cntr 1 0)
     else St.ret tt) ;;
    (if Z.land ABORT_IDR BTN_ABORT_Pin =? 0 then
       c <- St.gets (fun p => array_get 2 (debounce_cntrs p)) ;;
       if c <? 2 then St.modify (set_debounce_cntr 2 (to_uint32 (c + 1)))
       else
         on_instance (on_input_events_group (xEventGroupSetBits BTN_ABORT_EVENT)) ;;
         St.modify (set_debounce_cntr 2 0)
     else St.ret tt).

End Core.

End MachineCore.


(** ** Concrete states used to exercise the statements below *)

(** A StepTicker in mid-motion: X and Z axes enabled (bits 0 and 2),
    drivers energized and out of reset, a Block in progress at address
    0x20000400, tick 37.  The frequency is the pattern of 100000.0f. *)
Definition ticker_in_motion : StepTicker.t :=
  StepTicker.mk 0x47C35000 1680 0 0 1 5 (Some 0x20000400) 37 true
    (StepTicker.mkDriverLines true false).

(** Stand-ins for the collaborators, each with a visible effect: Blocks are
    step counts, the spindle and the coolant are an on/off flag that their
    stop call clears, and the conveyor's idle hook raises the capacity
    by one.  The pins are PF6, PF7 and PF8 as commented in
    [Init_GPIO_Pins]. *)
Definition bench : MachineCore.Externals := {|
  MachineCore.Block := Z;
  MachineCore.GCodeParser := unit;
  MachineCore.Planner := unit;
  MachineCore.CoolantController := bool;
  MachineCore.SpindleController := bool;
  MachineCore.SpindleController_InmediateStop := St.modify (fun _ => false);
  MachineCore.CoolantController_Stop := St.modify (fun _ => false);
  MachineCore.Conveyor_on_idle :=
    St.modify (fun c => Conveyor.mk (S (Conveyor.capacity c)) (Conveyor.queue c));
  MachineCore.BTN_START_Pin := Z.shiftl 1 6;
  MachineCore.BTN_HOLD_Pin := Z.shiftl 1 7;
  MachineCore.BTN_ABORT_Pin := Z.shiftl 1 8;
  MachineCore.BTN_START_EVENT := 1;
  MachineCore.BTN_HOLD_EVENT := 2;
  MachineCore.BTN_ABORT_EVENT := 4;
  MachineCore.GCODE_SOURCE_SERIAL_CONSOLE := 0
|}.

(** A machine on the bench right after construction, with three Blocks
    already queued, the spindle and the coolant on. *)
Definition machine_at_power_on : @MachineCore.t bench :=
  MachineCore.create (X := bench) tt tt (Conveyor.mk 8 [1000; 1000; 1000])
    ticker_in_motion true true.

(** The same machine together with the button poller's counters, all three
    buttons one poll short of firing. *)
Definition poll_at_power_on : @MachineCore.ButtonPoll bench :=
  MachineCore.mkButtonPoll machine_at_power_on [2; 2; 2].

(** ** GPIO set-up ([gpio.cpp]) *)

Module Gpio.

(** The GPIO ports of the STM32F4 family. *)
Inductive Port : Type :=
  GPIOA | GPIOB | GPIOC | GPIOD | GPIOE | GPIOF | GPIOG | GPIOH | GPIOI | GPIOJ | GPIOK.

(** [GPIO_GET_INDEX]: the number of a port. *)
Definition index (p : Port) : Z :=
  match p with
  | GPIOA => 0 | GPIOB => 1 | GPIOC => 2 | GPIOD => 3 | GPIOE => 4 | GPIOF => 5
  | GPIOG => 6 | GPIOH => 7 | GPIOI => 8 | GPIOJ => 9 | GPIOK => 10
  end.

Definition Port_eqb (p q : Port) : bool := index p =? index q.

(** The values of the [Mode], [Pull] and [Speed] fields of a
    [GPIO_InitTypeDef] that [Init_GPIO_Pins] uses; the first of each is
    the one a zero-initialised structure holds. *)
Inductive GpioMode : Type :=
  GPIO_MODE_INPUT | GPIO_MODE_OUTPUT_PP | GPIO_MODE_OUTPUT_OD
| GPIO_MODE_IT_RISING | GPIO_MODE_IT_FALLING.
Inductive GpioPull : Type := GPIO_NOPULL | GPIO_PULLUP | GPIO_PULLDOWN.
Inductive GpioSpeed : Type :=
  GPIO_SPEED_FREQ_LOW | GPIO_SPEED_FREQ_MEDIUM | GPIO_SPEED_FREQ_HIGH
| GPIO_SPEED_FREQ_VERY_HIGH.

(** [GPIO_InitTypeDef], without the [Alternate] field, which
    [Init_GPIO_Pins] never writes and the modes above never read. *)
Record GPIO_InitTypeDef : Type := mkInit {
  Pin : Z;
  Mode : GpioMode;
  Pull : GpioPull;
  Speed : GpioSpeed
}.

(** What [HAL_GPIO_Init] has last applied to one pin. *)
Record PinSetup : Type := mkPinSetup {
  pin_mode : GpioMode;
  pin_pull : GpioPull;
  pin_speed : GpioSpeed
}.

(** The hardware that [Init_GPIO_Pins] reaches through the HAL: the GPIO
    clock gates, each port's output data register, the set-up of each pin
    (by port and pin number), and the NVIC entry of the EXTI9_5
    interrupt. *)
Record Hw : Type := mkHw {
  clock_enabled : Port -> bool;
  ODR : Port -> Z;
  setup : Port -> Z -> option PinSetup;
  EXTI9_5_priority : option (Z * Z);
  EXTI9_5_enabled : bool
}.

Definition to_uint16 (x : Z) : Z := x mod 2 ^ 16.

(** [__HAL_RCC_GPIOx_CLK_ENABLE()] for port [p]. *)
Definition HAL_RCC_GPIO_CLK_ENABLE (p : Port) : St.M Hw unit :=
  St.modify (fun h =>
    mkHw (fun q => if Port_eqb q p then true else clock_enabled h q)
         (ODR h) (setup h) (EXTI9_5_priority h) (EXTI9_5_enabled h)).

(** [HAL_GPIO_WritePin(GPIOx, GPIO_Pin, PinState)], with [GPIO_Pin] a
    [uint16_t]: a write to the port's bit set/reset register, which sets,
    or clears, the masked bits of the output data register. *)
Definition HAL_GPIO_WritePin (p : Port) (GPIO_Pin : Z) (PinState : GPIO_PinState)
    : St.M Hw unit :=
  St.modify (fun h =>
    mkHw (clock_enabled h)
         (fun q =>
            if Port_eqb q p then
              match PinState with
              | GPIO_PIN_SET => Z.lor (ODR h q) (to_uint16 GPIO_Pin)
              | GPIO_PIN_RESET => Z.land (ODR h q) (Z.lnot (to_uint16 GPIO_Pin))
              end
            else ODR h q)
         (setup h) (EXTI9_5_priority h) (EXTI9_5_enabled h)).

(** [HAL_GPIO_Init(GPIOx, &GPIO_Init)]: every pin 0..15 whose bit is set
    in [GPIO_Init.Pin] takes the mode, pull and speed of the structure. *)
Definition HAL_GPIO_Init (p : Port) (GPIO_Init : GPIO_InitTypeDef) : St.M Hw unit :=
  St.modify (fun h =>
    mkHw (clock_enabled h) (ODR h)
         (fun q position =>
            if Port_eqb q p && ((0 <=? position) && (position <? 16))
               && Z.testbit (Pin GPIO_Init) position
            then Some (mkPinSetup (Mode GPIO_Init) (Pull GPIO_Init) (Speed GPIO_Init))
            else setup h q position)
         (EXTI9_5_priority h) (EXTI9_5_enabled h)).

(** [HAL_NVIC_SetPriority(EXTI9_5_IRQn, PreemptPriority, SubPriority)]. *)
Definition HAL_NVIC_SetPriority_EXTI9_5 (PreemptPriority SubPriority : Z)
    : St.M Hw unit :=
  St.modify (fun h =>
    mkHw (clock_enabled h) (ODR h) (setup h)
         (Some (PreemptPriority, SubPriority)) (EXTI9_5_enabled h)).

(** The pin and port macros of pins.h and the priority constant of
    FreeRTOSConfig.h, left arbitrary. *)
Class Pins : Type := {
  CTOUCH_RESET_Pin : Z;
  STEP_Z_Pin : Z; DIR_Z_Pin : Z;
  STEP_Y_Pin : Z; DIR_Y_Pin : Z;
  STEP_X_Pin : Z; DIR_X_Pin : Z;
  LED_0_Pin : Z; LED_1_Pin : Z;
  CTOUCH_SCL_Pin : Z; FLASH_CS_Pin : Z;
  CTOUCH_SDA_GPIO_Port : Port; CTOUCH_SDA_Pin : Z;
  SPIN_RESET_Pin : Z; COOLANT_ENABLE_Pin : Z;
  STEP_RESET_GPIO_Port : Port; STEP_RESET_Pin : Z;
  STEP_ENABLE_GPIO_Port : Port; STEP_ENABLE_Pin : Z;
  SDCARD_CS_GPIO_Port : Port; SDCARD_CS_Pin : Z;
  BTN_START_Pin : Z; BTN_HOLD_Pin : Z; BTN_ABORT_Pin : Z;
  CTOUCH_IRQ_Pin : Z; SPIN_AUX_Pin : Z;
  GLOBAL_FAULT_GPIO_Port : Port; GLOBAL_FAULT_Pin : Z;
  PROBE_INPUT_GPIO_Port : Port; PROBE_INPUT_Pin : Z;
  LIM_X_Pin : Z; LIM_Y_Pin : Z; LIM_Z_Pin : Z;
  KEY_1_Pin : Z; KEY_0_Pin : Z;
  configLIBRARY_MAX_SYSCALL_INTERRUPT_PRIORITY : Z
}.

Section Init.
Context {P : Pins}.

(** The function's frame: the hardware and the local [GPIO_InitStruct]. *)
Record Locals : Type := mkLocals {
  hw : Hw;
  GPIO_InitStruct : GPIO_InitTypeDef
}.

Definition on_hw {A} : St.M Hw A -> St.M Locals A :=
  St.zoom hw (fun h l => mkLocals h (GPIO_InitStruct l)).

(** Assignments to the fields of [GPIO_InitStruct]; [Pin] is a
    [uint32_t]. *)
Definition assign_Pin (v : Z) : St.M Locals unit :=
  St.modify (fun l => let i := GPIO_InitStruct l in
    mkLocals (hw l) (mkInit (to_uint32 v) (Mode i) (Pull i) (Speed i))).
Definition assign_Mode (v : GpioMode) : St.M Locals unit :=
  St.modify (fun l => let i := GPIO_InitStruct l in
    mkLocals (hw l) (mkInit (Pin i) v (Pull i) (Speed i))).
Definition assign_Pull (v : GpioPull) : St.M Locals unit :=
  St.modify (fun l => let i := GPIO_InitStruct l in
    mkLocals (hw l) (mkInit (Pin i) (Mode i) v (Speed i))).
Definition assign_Speed (v : GpioSpeed) : St.M Locals unit :=
  St.modify (fun l => let i := GPIO_InitStruct l in
    mkLocals (hw l) (mkInit (Pin i) (Mode i) (Pull i) v)).

(** [HAL_GPIO_Init(port, &GPIO_InitStruct)]. *)
Definition init_port (p : Port) : St.M Locals unit :=
  i <- St.gets GPIO_InitStruct ;;
  on_hw (HAL_GPIO_Init p i).

(** The statements of [Init_GPIO_Pins], in order. *)
Definition Init_GPIO_Pins_body : St.M Locals unit :=
  on_hw (HAL_RCC_GPIO_CLK_ENABLE GPIOE) ;;
  on_hw (HAL_RCC_GPIO_CLK_ENABLE GPIOC) ;;
  on_hw (HAL_RCC_GPIO_CLK_ENABLE GPIOF) ;;
  on_hw (HAL_RCC_GPIO_CLK_ENABLE GPIOH) ;;
  on_hw (HAL_RCC_GPIO_CLK_ENABLE GPIOA) ;;
  on_hw (HAL_RCC_GPIO_CLK_ENABLE GPIOB) ;;
  on_hw (HAL_RCC_GPIO_CLK_ENABLE GPIOG) ;;
  on_hw (HAL_RCC_GPIO_CLK_ENABLE GPIOD) ;;
  on_hw (HAL_GPIO_WritePin GPIOC
           (Z.lor (Z.lor (Z.lor (Z.lor (Z.lor (Z.lor
              CTOUCH_RESET_Pin STEP_Z_Pin) DIR_Z_Pin) STEP_Y_Pin) DIR_Y_Pin)
              STEP_X_Pin) DIR_X_Pin)
           GPIO_PIN_RESET) ;;
  on_hw (HAL_GPIO_WritePin GPIOF (Z.lor LED_0_Pin LED_1_Pin) GPIO_PIN_RESET) ;;
  on_hw (HAL_GPIO_WritePin GPIOB (Z.lor CTOUCH_SCL_Pin FLASH_CS_Pin) GPIO_PIN_SET) ;;
  on_hw (HAL_GPIO_WritePin CTOUCH_SDA_GPIO_Port CTOUCH_SDA_Pin GPIO_PIN_SET) ;;
  on_hw (HAL_GPIO_WritePin GPIOB (Z.lor SPIN_RESET_Pin COOLANT_ENABLE_Pin)
           GPIO_PIN_RESET) ;;
  on_hw (HAL_GPIO_WritePin STEP_RESET_GPIO_Port STEP_RESET_Pin GPIO_PIN_RESET) ;;
  on_hw (HAL_GPIO_WritePin STEP_ENABLE_GPIO_Port STEP_ENABLE_Pin GPIO_PIN_SET) ;;
  on_hw (HAL_GPIO_WritePin SDCARD_CS_GPIO_Port SDCARD_CS_Pin GPIO_PIN_SET) ;;
  (* Port C outputs *)
  assign_Pin (Z.lor (Z.lor (Z.lor (Z.lor (Z.lor (Z.lor (Z.lor
                CTOUCH_RESET_Pin STEP_Z_Pin) DIR_Z_Pin) STEP_Y_Pin) DIR_Y_Pin)
                STEP_X_Pin) DIR_X_Pin) STEP_ENABLE_Pin) ;;
  assign_Mode GPIO_MODE_OUTPUT_PP ;;
  assign_Pull GPIO_NOPULL ;;
  assign_Speed GPIO_SPEED_FREQ_LOW ;;
  init_port GPIOC ;;
  (* Port F buttons *)
  assign_Pin (Z.lor (Z.lor BTN_START_Pin BTN_HOLD_Pin) BTN_ABORT_Pin) ;;
  assign_Pull GPIO_PULLUP ;;
  assign_Mode GPIO_MODE_IT_FALLING ;;
  init_port GPIOF ;;
  (* Port F LEDs *)
  assign_Pin (Z.lor LED_0_Pin LED_1_Pin) ;;
  assign_Mode GPIO_MODE_OUTPUT_PP ;;
  assign_Pull GPIO_NOPULL ;;
  assign_Speed GPIO_SPEED_FREQ_LOW ;;
  init_port GPIOF ;;
  (* Port B open-drain outputs *)
  assign_Pin (Z.lor CTOUCH_SCL_Pin SPIN_RESET_Pin) ;;
  assign_Mode GPIO_MODE_OUTPUT_OD ;;
  assign_Pull GPIO_NOPULL ;;
  assign_Speed GPIO_SPEED_FREQ_LOW ;;
  init_port GPIOB ;;
  (* Port B inputs *)
  assign_Pin (Z.lor CTOUCH_IRQ_Pin SPIN_AUX_Pin) ;;
  assign_Mode GPIO_MODE_INPUT ;;
  assign_Pull GPIO_PULLDOWN ;;
  init_port GPIOB ;;
  (* Touch SDA *)
  assign_Pin CTOUCH_SDA_Pin ;;
  assign_Mode GPIO_MODE_OUTPUT_OD ;;
  assign_Pull GPIO_NOPULL ;;
  assign_Speed GPIO_SPEED_FREQ_LOW ;;
  init_port CTOUCH_SDA_GPIO_Port ;;
  (* Port B push-pull outputs *)
  assign_Pin (Z.lor FLASH_CS_Pin COOLANT_ENABLE_Pin) ;;
  assign_Mode GPIO_MODE_OUTPUT_PP ;;
  assign_Pull GPIO_NOPULL ;;
  assign_Speed GPIO_SPEED_FREQ_LOW ;;
  init_port GPIOB ;;
  (* Global stepper fault *)
  assign_Pin GLOBAL_FAULT_Pin ;;
  assign_Mode GPIO_MODE_IT_FALLING ;;
  assign_Pull GPIO_PULLUP ;;
  init_port GLOBAL_FAULT_GPIO_Port ;;
  (* Stepper reset *)
  assign_Pin STEP_RESET_Pin ;;
  assign_Mode GPIO_MODE_OUTPUT_PP ;;
  assign_Pull GPIO_NOPULL ;;
  assign_Speed GPIO_SPEED_FREQ_LOW ;;
  init_port STEP_RESET_GPIO_Port ;;
  (* Probe input *)
  assign_Pin PROBE_INPUT_Pin ;;
  assign_Mode GPIO_MODE_INPUT ;;
  assign_Pull GPIO_PULLDOWN ;;
  init_port PROBE_INPUT_GPIO_Port ;;
  (* Port C limit switches *)
  assign_Pin (Z.lor (Z.lor LIM_X_Pin LIM_Y_Pin) LIM_Z_Pin) ;;
  assign_Mode GPIO_MODE_IT_RISING ;;
  assign_Pull GPIO_PULLDOWN ;;
  init_port GPIOC ;;
  (* SD card chip select *)
  assign_Pin SDCARD_CS_Pin ;;
  assign_Mode GPIO_MODE_OUTPUT_PP ;;
  assign_Pull GPIO_NOPULL ;;
  assign_Speed GPIO_SPEED_FREQ_LOW ;;
  init_port SDCARD_CS_GPIO_Port ;;
  (* Port B keys *)
  assign_Pin (Z.lor KEY_1_Pin KEY_0_Pin) ;;
  assign_Mode GPIO_MODE_IT_FALLING ;;
  assign_Pull GPIO_PULLUP ;;
  init_port GPIOB ;;
  on_hw (HAL_NVIC_SetPriority_EXTI9_5 configLIBRARY_MAX_SYSCALL_INTERRUPT_PRIORITY 0).

(** [void Init_GPIO_Pins(void)]: the body run on a zero-initialised
    [GPIO_InitStruct]; the call that would enable EXTI9_5 in the NVIC is
    commented out in the source. *)
Definition Init_GPIO_Pins : St.M Hw unit :=
  fun h =>
    (tt, hw (St.after Init_GPIO_Pins_body
               (mkLocals h (mkInit 0 GPIO_MODE_INPUT GPIO_NOPULL GPIO_SPEED_FREQ_LOW)))).

(** Reference: the HAL calls that [Init_GPIO_Pins] makes, gathered in
    tables in the order of the source: the port clocks enabled, the
    (port, pins, level) triples written, and the ports set up, each with
    the contents of [GPIO_InitStruct] at the time of the call. *)
Definition gpio_clocks : list Port :=
  [GPIOE; GPIOC; GPIOF; GPIOH; GPIOA; GPIOB; GPIOG; GPIOD].

Definition gpio_writes : list (Port * Z * GPIO_PinState) :=
  [ (GPIOC,
     Z.lor (Z.lor (Z.lor (Z.lor (Z.lor (Z.lor
       CTOUCH_RESET_Pin STEP_Z_Pin) DIR_Z_Pin) STEP_Y_Pin) DIR_Y_Pin)
       STEP_X_Pin) DIR_X_Pin,
     GPIO_PIN_RESET);
    (GPIOF, Z.lor LED_0_Pin LED_1_Pin, GPIO_PIN_RESET);
    (GPIOB, Z.lor CTOUCH_SCL_Pin FLASH_CS_Pin, GPIO_PIN_SET);
    (CTOUCH_SDA_GPIO_Port, CTOUCH_SDA_Pin, GPIO_PIN_SET);
    (GPIOB, Z.lor SPIN_RESET_Pin COOLANT_ENABLE_Pin, GPIO_PIN_RESET);
    (STEP_RESET_GPIO_Port, STEP_RESET_Pin, GPIO_PIN_RESET);
    (STEP_ENABLE_GPIO_Port, STEP_ENABLE_Pin, GPIO_PIN_SET);
    (SDCARD_CS_GPIO_Port, SDCARD_CS_Pin, GPIO_PIN_SET) ].

Definition gpio_inits : list (Port * GPIO_InitTypeDef) :=
  [ (GPIOC,
     mkInit
       (to_uint32
          (Z.lor (Z.lor (Z.lor (Z.lor (Z.lor (Z.lor (Z.lor
             CTOUCH_RESET_Pin STEP_Z_Pin) DIR_Z_Pin) STEP_Y_Pin) DIR_Y_Pin)
             STEP_X_Pin) DIR_X_Pin) STEP_ENABLE_Pin))
       GPIO_MODE_OUTPUT_PP GPIO_NOPULL GPIO_SPEED_FREQ_LOW);
    (GPIOF,
     mkInit (to_uint32 (Z.lor (Z.lor BTN_START_Pin BTN_HOLD_Pin) BTN_ABORT_Pin))
       GPIO_MODE_IT_FALLING GPIO_PULLUP GPIO_SPEED_FREQ_LOW);
    (GPIOF,
     mkInit (to_uint32 (Z.lor LED_0_Pin LED_1_Pin))
       GPIO_MODE_OUTPUT_PP GPIO_NOPULL GPIO_SPEED_FREQ_LOW);
    (GPIOB,
     mkInit (to_uint32 (Z.lor CTOUCH_SCL_Pin SPIN_RESET_Pin))
       GPIO_MODE_OUTPUT_OD GPIO_NOPULL GPIO_SPEED_FREQ_LOW);
    (GPIOB,
     mkInit (to_uint32 (Z.lor CTOUCH_IRQ_Pin SPIN_AUX_Pin))
       GPIO_MODE_INPUT GPIO_PULLDOWN GPIO_SPEED_FREQ_LOW);
    (CTOUCH_SDA_GPIO_Port,
     mkInit (to_uint32 CTOUCH_SDA_Pin)
       GPIO_MODE_OUTPUT_OD GPIO_NOPULL GPIO_SPEED_FREQ_LOW);
    (GPIOB,
     mkInit (to_uint32 (Z.lor FLASH_CS_Pin COOLANT_ENABLE_Pin))
       GPIO_MODE_OUTPUT_PP GPIO_NOPULL GPIO_SPEED_FREQ_LOW);
    (GLOBAL_FAULT_GPIO_Port,
     mkInit (to_uint32 GLOBAL_FAULT_Pin)
       GPIO_MODE_IT_FALLING GPIO_PULLUP GPIO_SPEED_FREQ_LOW);
    (STEP_RESET_GPIO_Port,
     mkInit (to_uint32 STEP_RESET_Pin)
       GPIO_MODE_OUTPUT_PP GPIO_NOPULL GPIO_SPEED_FREQ_LOW);
    (PROBE_INPUT_GPIO_Port,
     mkInit (to_uint32 PROBE_INPUT_Pin)
       GPIO_MODE_INPUT GPIO_PULLDOWN GPIO_SPEED_FREQ_LOW);
    (GPIOC,
     mkInit (to_uint32 (Z.lor (Z.lor LIM_X_Pin LIM_Y_Pin) LIM_Z_Pin))
       GPIO_MODE_IT_RISING GPIO_PULLDOWN GPIO_SPEED_FREQ_LOW);
    (SDCARD_CS_GPIO_Port,
     mkInit (to_uint32 SDCARD_CS_Pin)
       GPIO_MODE_OUTPUT_PP GPIO_NOPULL GPIO_SPEED_FREQ_LOW);
    (GPIOB,
     mkInit (to_uint32 (Z.lor KEY_1_Pin KEY_0_Pin))
       GPIO_MODE_IT_FALLING GPIO_PULLUP GPIO_SPEED_FREQ_LOW) ].

End Init.

(** A table of calls, made first to last. *)
Definition run_clocks (ps : list Port) (h : Hw) : Hw :=
  fold_left (fun h p => St.after (HAL_RCC_GPIO_CLK_ENABLE p) h) ps h.
Definition run_writes (ws : list (Port * Z * GPIO_PinState)) (h : Hw) : Hw :=
  fold_left
    (fun h w => St.after (HAL_GPIO_WritePin (fst (fst w)) (snd (fst w)) (snd w)) h)
    ws h.
Definition run_inits (es : list (Port * GPIO_InitTypeDef)) (h : Hw) : Hw :=
  fold_left (fun h e => St.after (HAL_GPIO_Init (fst e) (snd e)) h) es h.

(** Reference: one output bit through one write, and one pin's set-up
    through one [HAL_GPIO_Init]. *)
Definition write_covers (w : Port * Z * GPIO_PinState) (p : Port) (i : Z) : bool :=
  Port_eqb p (fst (fst w)) && Z.testbit (to_uint16 (snd (fst w))) i.
Definition bit_after_write (p : Port) (i : Z) (b : bool)
    (w : Port * Z * GPIO_PinState) : bool :=
  match snd w with
  | GPIO_PIN_SET => b || write_covers w p i
  | GPIO_PIN_RESET => b && negb (write_covers w p i)
  end.
Definition init_covers (e : Port * GPIO_InitTypeDef) (p : Port) (i : Z) : bool :=
  Port_eqb p (fst e) && ((0 <=? i) && (i <? 16)) && Z.testbit (Pin (snd e)) i.
Definition setup_after_init (p : Port) (i : Z) (o : option PinSetup)
    (e : Port * GPIO_InitTypeDef) : option PinSetup :=
  if init_covers e p i
  then Some (mkPinSetup (Mode (snd e)) (Pull (snd e)) (Speed (snd e)))
  else o.

(** A pin set-up is coherent when it is low speed and its pull resistor
    goes with its mode: none on an output, pull-up on a falling-edge
    interrupt input, pull-down on a rising-edge interrupt input and on a
    plain input. *)
Definition coherent (c : PinSetup) : bool :=
  match pin_speed c with
  | GPIO_SPEED_FREQ_LOW =>
      match pin_mode c, pin_pull c with
      | GPIO_MODE_OUTPUT_PP, GPIO_NOPULL
      | GPIO_MODE_OUTPUT_OD, GPIO_NOPULL
      | GPIO_MODE_IT_FALLING, GPIO_PULLUP
      | GPIO_MODE_IT_RISING, GPIO_PULLDOWN
      | GPIO_MODE_INPUT, GPIO_PULLDOWN => true
      | _, _ => false
      end
  | _ => false
  end.

(** Two signals are apart when they sit on different ports or share no
    pin. *)
Definition apart (p : Port) (m : Z) (q : Port) (n : Z) : Prop :=
  p <> q \/ Z.land (to_uint16 m) (to_uint16 n) = 0.

End Gpio.
(** The pin assignment written in the comments of [Init_GPIO_Pins]
    (PC13, PC0..PC5, PF9, PF10, ...; CTOUCH_SCL taken as PB10), with
    interrupt priority 5. *)
Definition board : Gpio.Pins := {|
  Gpio.CTOUCH_RESET_Pin := Z.shiftl 1 13;
  Gpio.STEP_Z_Pin := Z.shiftl 1 0; Gpio.DIR_Z_Pin := Z.shiftl 1 1;
  Gpio.STEP_Y_Pin := Z.shiftl 1 2; Gpio.DIR_Y_Pin := Z.shiftl 1 3;
  Gpio.STEP_X_Pin := Z.shiftl 1 4; Gpio.DIR_X_Pin := Z.shiftl 1 5;
  Gpio.LED_0_Pin := Z.shiftl 1 9; Gpio.LED_1_Pin := Z.shiftl 1 10;
  Gpio.CTOUCH_SCL_Pin := Z.shiftl 1 10; Gpio.FLASH_CS_Pin := Z.shiftl 1 14;
  Gpio.CTOUCH_SDA_GPIO_Port := Gpio.GPIOF; Gpio.CTOUCH_SDA_Pin := Z.shiftl 1 11;
  Gpio.SPIN_RESET_Pin := Z.shiftl 1 13; Gpio.COOLANT_ENABLE_Pin := Z.shiftl 1 6;
  Gpio.STEP_RESET_GPIO_Port := Gpio.GPIOG; Gpio.STEP_RESET_Pin := Z.shiftl 1 7;
  Gpio.STEP_ENABLE_GPIO_Port := Gpio.GPIOC; Gpio.STEP_ENABLE_Pin := Z.shiftl 1 9;
  Gpio.SDCARD_CS_GPIO_Port := Gpio.GPIOA; Gpio.SDCARD_CS_Pin := Z.shiftl 1 15;
  Gpio.BTN_START_Pin := Z.shiftl 1 6; Gpio.BTN_HOLD_Pin := Z.shiftl 1 7;
  Gpio.BTN_ABORT_Pin := Z.shiftl 1 8;
  Gpio.CTOUCH_IRQ_Pin := Z.shiftl 1 1; Gpio.SPIN_AUX_Pin := Z.shiftl 1 12;
  Gpio.GLOBAL_FAULT_GPIO_Port := Gpio.GPIOG; Gpio.GLOBAL_FAULT_Pin := Z.shiftl 1 6;
  Gpio.PROBE_INPUT_GPIO_Port := Gpio.GPIOG; Gpio.PROBE_INPUT_Pin := Z.shiftl 1 8;
  Gpio.LIM_X_Pin := Z.shiftl 1 6; Gpio.LIM_Y_Pin := Z.shiftl 1 7;
  Gpio.LIM_Z_Pin := Z.shiftl 1 8;
  Gpio.KEY_1_Pin := Z.shiftl 1 8; Gpio.KEY_0_Pin := Z.shiftl 1 9;
  Gpio.configLIBRARY_MAX_SYSCALL_INTERRUPT_PRIORITY := 5
|}.

(** The hardware out of reset: clocks gated, every output register zero,
    no pin set up, the interrupt disabled. *)
Definition hw_at_reset : Gpio.Hw :=
  Gpio.mkHw (fun _ => false) (fun _ => 0) (fun _ _ => None) None false.

(** ** Sequences of calls *)

Module MotorOps.

(** The three inline members of [StepTicker] that write
    [motor_enable_bits]. *)
Inductive op : Type :=
| Enable (axis : Z)
| Disable (axis : Z)
| DisableAll.

Definition call (o : op) : St.M StepTicker.t unit :=
  match o with
  | Enable axis => StepTicker.EnableMotor axis
  | Disable axis => StepTicker.DisableMotor axis
  | DisableAll => StepTicker.DisableAllMotors
  end.

Fixpoint calls (os : list op) : St.M StepTicker.t unit :=
  match os with
  | [] => St.ret tt
  | o :: rest => call o ;; calls rest
  end.

(** The axis an operation names lies in 0..7. *)
Definition axis_in_range (o : op) : Prop :=
  match o with
  | Enable axis | Disable axis => 0 <= axis < 8
  | DisableAll => True
  end.

(** Reference: whether axis [a] counts as enabled after the operations,
    given whether it did before; the last operation that names it, or
    the last [DisableAll], decides. *)
Fixpoint enabled_after (os : list op) (a : Z) (before : bool) : bool :=
  match os with
  | [] => before
  | Enable axis :: rest => enabled_after rest a (if a =? axis then true else before)
  | Disable axis :: rest => enabled_after rest a (if a =? axis then false else before)
  | DisableAll :: rest => enabled_after rest a false
  end.

End MotorOps.

Module Schedule.

Section Schedule.
Context {X : MachineCore.Externals}.

(** The button timer is created with auto-reload, so its callback runs
    once per period: one triple of port readings (start, hold, abort)
    per run. *)
Fixpoint button_polls (reads : list (Z * Z * Z))
    : St.M MachineCore.ButtonPoll unit :=
  match reads with
  | [] => St.ret tt
  | (START_IDR, HOLD_IDR, ABORT_IDR) :: rest =>
      MachineCore.read_user_buttons_callback START_IDR HOLD_IDR ABORT_IDR ;;
      button_polls rest
  end.

(** Reference: in how many of the readings a button's pin reads low. *)
Definition seen_low (pin : Z) (idrs : list Z) : Z :=
  Z.of_nat (length (filter (fun idr => Z.land idr pin =? 0) idrs)).

Definition START_reads (reads : list (Z * Z * Z)) : list Z :=
  map (fun r => fst (fst r)) reads.
Definition HOLD_reads (reads : list (Z * Z * Z)) : list Z :=
  map (fun r => snd (fst r)) reads.
Definition ABORT_reads (reads : list (Z * Z * Z)) : list Z :=
  map (fun r => snd r) reads.

(** Reference, for one run of the callback and one button: whether its
    pin reads low, where its counter goes, and the event bits it raises. *)
Definition reads_low (idr pin : Z) : bool := Z.land idr pin =? 0.
Definition next_count (low : bool) (c : Z) : Z :=
  if low then (if c <? 2 then to_uint32 (c + 1) else 0) else c.
Definition fired (event : EventBits_t) (low : bool) (c : Z) : EventBits_t :=
  if low then (if c <? 2 then 0 else event) else 0.

(** Reference: what one block of the callback does to the poller, for
    the button with counter [i], port reading [idr], pin mask [pin] and
    event [event]. *)
Definition block_effect (i : nat) (idr pin : Z) (event : EventBits_t)
    (p : MachineCore.ButtonPoll) : MachineCore.ButtonPoll :=
  let c := array_get i (MachineCore.debounce_cntrs p) in
  MachineCore.mkButtonPoll
    (MachineCore.set_input_events_group
       (Z.lor (MachineCore.m_input_events_group (MachineCore.instance p))
              (fired event (reads_low idr pin) c))
       (MachineCore.instance p))
    (array_set i (next_count (reads_low idr pin) c) (MachineCore.debounce_cntrs p)).

(** A change to the machine made while the poller's counters rest. *)
Definition on_machine (f : MachineCore.t -> MachineCore.t)
    (p : MachineCore.ButtonPoll) : MachineCore.ButtonPoll :=
  MachineCore.mkButtonPoll (f (MachineCore.instance p)) (MachineCore.debounce_cntrs p).

(** Reference: the event bits a button has raised once it has been seen
    low [n] times from a counter at [c]. *)
Definition raised (event : EventBits_t) (c n : Z) : EventBits_t :=
  if 3 <=? c + n then event else 0.

(** The entry points of MachineCore.cpp that the scheduler, the timers
    and the interrupt glue may run once the object exists, with their
    arguments and the pin readings they meet. *)
Inductive Entry : Type :=
| Enter_OnIdle
| Enter_Halt
| Enter_NotifyOfEvent (it_evt_src : Z) (GLOBAL_FAULT LIM_X : GPIO_PinState)
| Enter_steppers_idle_timeout_callback
| Enter_delayed_startup_callback
| Enter_read_user_buttons_callback (START_IDR HOLD_IDR ABORT_IDR : Z).

Definition enter (e : Entry) : St.M MachineCore.ButtonPoll unit :=
  match e with
  | Enter_OnIdle => MachineCore.on_instance MachineCore.OnIdle
  | Enter_Halt => MachineCore.on_instance MachineCore.Halt
  | Enter_NotifyOfEvent it_evt_src GLOBAL_FAULT LIM_X =>
      MachineCore.on_instance
        (_ <- MachineCore.NotifyOfEvent it_evt_src GLOBAL_FAULT LIM_X ;; St.ret tt)
  | Enter_steppers_idle_timeout_callback =>
      MachineCore.on_instance MachineCore.steppers_idle_timeout_callback
  | Enter_delayed_startup_callback =>
      MachineCore.on_instance MachineCore.delayed_startup_callback
  | Enter_read_user_buttons_callback START_IDR HOLD_IDR ABORT_IDR =>
      MachineCore.read_user_buttons_callback START_IDR HOLD_IDR ABORT_IDR
  end.

Fixpoint enter_all (es : list Entry) : St.M MachineCore.ButtonPoll unit :=
  match es with
  | [] => St.ret tt
  | e :: rest => enter e ;; enter_all rest
  end.

Definition is_startup (e : Entry) : bool :=
  match e with Enter_delayed_startup_callback => true | _ => false end.

Definition is_halt (e : Entry) : bool :=
  match e with Enter_Halt => true | _ => false end.

(** No event bit that was set has been cleared. *)
Definition events_kept (before after : EventBits_t) : Prop :=
  forall b, Z.testbit before b = true -> Z.testbit after b = true.

(** What the button callback may change: the event group, by setting
    bits, and the values of its counters. *)
Definition only_events_raised (p p' : MachineCore.ButtonPoll) : Prop :=
  MachineCore.instance p'
  = MachineCore.set_input_events_group
      (MachineCore.m_input_events_group (MachineCore.instance p'))
      (MachineCore.instance p) /\
  events_kept (MachineCore.m_input_events_group (MachineCore.instance p))
              (MachineCore.m_input_events_group (MachineCore.instance p')) /\
  length (MachineCore.debounce_cntrs p') = length (MachineCore.debounce_cntrs p).

(** What no entry point undoes or touches: the two latches stay set, the
    members written by the constructor alone stay as they are, event
    bits stay set and the counter array keeps its size. *)
Definition nothing_undone (p p' : MachineCore.ButtonPoll) : Prop :=
  let m := MachineCore.instance p in
  let m' := MachineCore.instance p' in
  (MachineCore.m_system_halted m = true -> MachineCore.m_system_halted m' = true) /\
  (MachineCore.m_startup_finished m = true ->
   MachineCore.m_startup_finished m' = true) /\
  MachineCore.m_feed_hold m' = MachineCore.m_feed_hold m /\
  MachineCore.m_axes_homing_now m' = MachineCore.m_axes_homing_now m /\
  MachineCore.m_axes_already_homed m' = MachineCore.m_axes_already_homed m /\
  MachineCore.m_gcode_source m' = MachineCore.m_gcode_source m /\
  MachineCore.m_gcode_parser m' = MachineCore.m_gcode_parser m /\
  MachineCore.m_planner m' = MachineCore.m_planner m /\
  events_kept (MachineCore.m_input_events_group m)
              (MachineCore.m_input_events_group m') /\
  length (MachineCore.debounce_cntrs p') = length (MachineCore.debounce_cntrs p).

End Schedule.

End Schedule.


(** * Properties *)

Unset Implicit Arguments.

(** ** The state monad *)

Lemma bind_run {S A B} (c : St.M S A) (k : A -> St.M S B) (s : S) :
  St.bind c k s = k (fst (c s)) (snd (c s)).
Proof. unfold St.bind. destruct (c s); reflexivity. Qed.

Lemma zoom_run {S T A} (proj : S -> T) (upd : T -> S -> S) (c : St.M T A) (s : S) :
  St.zoom proj upd c s = (fst (c (proj s)), upd (snd (c (proj s))) s).
Proof. unfold St.zoom. destruct (c (proj s)); reflexivity. Qed.

(** ** Bits of a [uint8_t] *)

Lemma to_uint8_range (x : Z) : is_uint8 (to_uint8 x).
Proof. unfold is_uint8, to_uint8. apply Z.mod_pos_bound. lia. Qed.

Lemma to_uint8_small (x : Z) : is_uint8 x -> to_uint8 x = x.
Proof. unfold is_uint8, to_uint8. intros H. apply Z.mod_small. exact H. Qed.

Lemma uint8_high_bits (x b : Z) : is_uint8 x -> 8 <= b -> Z.testbit x b = false.
Proof.
  intros Hx Hb. rewrite <- (to_uint8_small x Hx). unfold to_uint8.
  apply Z.mod_pow2_bits_high. lia.
Qed.

Lemma to_uint8_testbit (x b : Z) :
  Z.testbit (to_uint8 x) b = if b <? 8 then Z.testbit x b else false.
Proof.
  unfold to_uint8. destruct (Z.ltb_spec b 8) as [Hlt | Hge].
  - destruct (Z.lt_ge_cases b 0) as [Hneg | Hpos].
    + rewrite !Z.testbit_neg_r by assumption. reflexivity.
    + apply Z.mod_pow2_bits_low. lia.
  - apply Z.mod_pow2_bits_high. lia.
Qed.

Lemma shiftl_1_testbit (a b : Z) :
  0 <= a -> Z.testbit (Z.shiftl 1 a) b = (b =? a).
Proof.
  intros Ha. rewrite Z.shiftl_1_l. destruct (Z.eqb_spec b a) as [-> | Hne].
  - apply Z.pow2_bits_true. exact Ha.
  - apply Z.pow2_bits_false. congruence.
Qed.

Lemma nonzero_has_bit (x : Z) :
  is_uint8 x -> (x <> 0 <-> exists a, 0 <= a < 8 /\ Z.testbit x a = true).
Proof.
  intros Hx. split.
  - intros Hnz. destruct (Z.testbit x 0) eqn:B0; [exists 0; split; [lia | exact B0] |].
    destruct (Z.testbit x 1) eqn:B1; [exists 1; split; [lia | exact B1] |].
    destruct (Z.testbit x 2) eqn:B2; [exists 2; split; [lia | exact B2] |].
    destruct (Z.testbit x 3) eqn:B3; [exists 3; split; [lia | exact B3] |].
    destruct (Z.testbit x 4) eqn:B4; [exists 4; split; [lia | exact B4] |].
    destruct (Z.testbit x 5) eqn:B5; [exists 5; split; [lia | exact B5] |].
    destruct (Z.testbit x 6) eqn:B6; [exists 6; split; [lia | exact B6] |].
    destruct (Z.testbit x 7) eqn:B7; [exists 7; split; [lia | exact B7] |].
    exfalso. apply Hnz. apply Z.bits_inj_0. intros n.
    destruct (Z.lt_ge_cases n 0) as [Hneg | Hpos]; [apply Z.testbit_neg_r; exact Hneg |].
    destruct (Z.lt_ge_cases n 8) as [Hlt | Hge]; [| apply uint8_high_bits; assumption].
    assert (n = 0 \/ n = 1 \/ n = 2 \/ n = 3 \/ n = 4 \/ n = 5 \/ n = 6 \/ n = 7)
      as Hn by lia.
    repeat (destruct Hn as [-> | Hn]; [assumption |]). subst n. assumption.
  - intros (a & _ & Ha) ->. rewrite Z.bits_0 in Ha. discriminate.
Qed.

(** ** StepTicker *)

Section StepTickerFacts.
Import StepTicker.

Lemma set_motor_enable_bits_same (s : StepTicker.t) :
  set_motor_enable_bits (motor_enable_bits s) s = s.
Proof. destruct s; reflexivity. Qed.

Lemma set_motor_enable_bits_twice (u v : Z) (s : StepTicker.t) :
  set_motor_enable_bits u (set_motor_enable_bits v s) = set_motor_enable_bits u s.
Proof. reflexivity. Qed.

Lemma EnableMotor_bits (a : Z) (s : StepTicker.t) (b : Z) :
  0 <= a < 8 -> is_uint8 (motor_enable_bits s) ->
  Z.testbit (motor_enable_bits (St.after (EnableMotor a) s)) b
  = if b =? a then true else Z.testbit (motor_enable_bits s) b.
Proof.
  intros Ha Hs. cbn. rewrite to_uint8_testbit, Z.lor_spec, shiftl_1_testbit by lia.
  destruct (Z.eqb_spec b a) as [-> | Hne].
  - rewrite Bool.orb_true_r. destruct (Z.ltb_spec a 8); [reflexivity | lia].
  - rewrite Bool.orb_false_r. destruct (Z.ltb_spec b 8); [reflexivity |].
    symmetry. apply uint8_high_bits; assumption.
Qed.

Lemma DisableMotor_bits (a : Z) (s : StepTicker.t) (b : Z) :
  0 <= a < 8 -> is_uint8 (motor_enable_bits s) ->
  Z.testbit (motor_enable_bits (St.after (DisableMotor a) s)) b
  = if b =? a then false else Z.testbit (motor_enable_bits s) b.
Proof.
  intros Ha Hs. cbn. rewrite to_uint8_testbit.
  destruct (Z.lt_ge_cases b 0) as [Hneg | Hpos].
  - rewrite !Z.testbit_neg_r by assumption.
    destruct (b <? 8), (b =? a); reflexivity.
  - rewrite Z.land_spec, Z.lnot_spec, shiftl_1_testbit by lia.
    destruct (Z.eqb_spec b a) as [-> | Hne]; cbn.
    + rewrite Bool.andb_false_r. destruct (a <? 8); reflexivity.
    + rewrite Bool.andb_true_r. destruct (Z.ltb_spec b 8); [reflexivity |].
      symmetry. apply uint8_high_bits; assumption.
Qed.

(** C9. For an axis index [a] with 0 <= a < 8 and any [uint8_t] value of
    [motor_enable_bits]: [EnableMotor(a)] sets bit [a] and leaves every
    other bit as it was, [DisableMotor(a)] clears bit [a] and leaves every
    other bit as it was, neither touches another member, and
    [DisableMotor(a)] after [EnableMotor(a)] gives back a state whose bit
    [a] was clear. *)
Theorem EnableMotor_DisableMotor_exact_bit (a : Z) (s : StepTicker.t) :
  0 <= a < 8 ->
  is_uint8 (motor_enable_bits s) ->
  let e := St.after (EnableMotor a) s in
  let d := St.after (DisableMotor a) s in
  (forall b, Z.testbit (motor_enable_bits e) b
             = if b =? a then true else Z.testbit (motor_enable_bits s) b) /\
  (forall b, Z.testbit (motor_enable_bits d) b
             = if b =? a then false else Z.testbit (motor_enable_bits s) b) /\
  e = set_motor_enable_bits (motor_enable_bits e) s /\
  d = set_motor_enable_bits (motor_enable_bits d) s /\
  is_uint8 (motor_enable_bits e) /\
  is_uint8 (motor_enable_bits d) /\
  (Z.testbit (motor_enable_bits s) a = false ->
   St.after (DisableMotor a) e = s).
Proof.
  intros Ha Hs e d.
  assert (He : is_uint8 (motor_enable_bits e)) by apply to_uint8_range.
  repeat split; try apply to_uint8_range.
  - intros b. apply EnableMotor_bits; assumption.
  - intros b. apply DisableMotor_bits; assumption.
  - intros Hclear.
    assert (Hbits : motor_enable_bits (St.after (DisableMotor a) e)
                    = motor_enable_bits s).
    { apply Z.bits_inj'. intros b _.
      rewrite DisableMotor_bits by assumption. subst e.
      rewrite EnableMotor_bits by assumption.
      destruct (Z.eqb_spec b a) as [-> | _]; [symmetry; exact Hclear | reflexivity]. }
    transitivity (set_motor_enable_bits (motor_enable_bits s) s);
      [| apply set_motor_enable_bits_same].
    rewrite <- Hbits. reflexivity.
Qed.

(** On the StepTicker in motion, with X and Z enabled: enabling and then
    disabling the Y motor (axis 1, bit clear). *)
Lemma EnableMotor_DisableMotor_exact_bit_witness :
  (0 <= 1 < 8 /\ is_uint8 (motor_enable_bits ticker_in_motion)) /\
  motor_enable_bits (St.after (EnableMotor 1) ticker_in_motion) = 7 /\
  St.after (DisableMotor 1) (St.after (EnableMotor 1) ticker_in_motion)
  = ticker_in_motion.
Proof.
  assert (Ha : 0 <= 1 < 8) by lia.
  assert (Hs : is_uint8 (motor_enable_bits ticker_in_motion))
    by (unfold is_uint8; simpl; lia).
  split; [split; assumption |]. split; [reflexivity |].
  apply (EnableMotor_DisableMotor_exact_bit 1 ticker_in_motion Ha Hs).
  reflexivity.
Defined.



(** C6. [EnableStepperDrivers(false)] twice in a row leaves the same
    state, driver lines included, as [EnableStepperDrivers(false)]
    once. *)
Theorem EnableStepperDrivers_false_idempotent (s : StepTicker.t) :
  St.after (EnableStepperDrivers false) (St.after (EnableStepperDrivers false) s)
  = St.after (EnableStepperDrivers false) s /\
  drivers_enabled (lines (St.after (EnableStepperDrivers false) s)) = false.
Proof. split; reflexivity. Qed.

(** C8. [get_frequency()] returns the [frequency] member and
    [get_current_block()] the [current_block] member, and each leaves the
    StepTicker exactly as it found it. *)
Theorem observers_are_pure (s : StepTicker.t) :
  get_frequency s = (frequency s, s) /\
  get_current_block s = (current_block s, s).
Proof. split; reflexivity. Qed.

(** C7. The scale constant is exactly 2^62 = [1 << 62], it is a value of
    the signed 64-bit type, and [STEPTICKER_FROMFP] divides by it: one
    whole step, [STEPTICKER_FPSCALE] itself, converts back to 1. *)
Theorem STEPTICKER_FPSCALE_is_2_pow_62 :
  STEPTICKER_FPSCALE = 2 ^ 62 /\
  STEPTICKER_FPSCALE = Z.shiftl 1 62 /\
  is_int64 STEPTICKER_FPSCALE /\
  ~ is_int64 (2 * STEPTICKER_FPSCALE) /\
  (forall (float_of_int64 : Z -> Q) (x : Z),
     (STEPTICKER_FROMFP float_of_int64 x == float_of_int64 x / inject_Z (2 ^ 62))%Q) /\
  (STEPTICKER_FROMFP inject_Z STEPTICKER_FPSCALE == 1)%Q.
Proof.
  assert (E : STEPTICKER_FPSCALE = 2 ^ 62) by reflexivity.
  split; [exact E |]. split; [reflexivity |].
  split; [rewrite E; unfold is_int64; lia |].
  split; [rewrite E; unfold is_int64; lia |].
  split.
  - intros cast x. unfold STEPTICKER_FROMFP. rewrite E. reflexivity.
  - unfold STEPTICKER_FROMFP. rewrite E. reflexivity.
Qed.

End StepTickerFacts.

(** ** MachineCore *)

(** [Halt()] unfolded: its six statements, innermost first. *)
Lemma Halt_run {X : MachineCore.Externals} (m : MachineCore.t) :
  St.after MachineCore.Halt m
  = MachineCore.set_conveyor
      (St.after (@Conveyor.flush_queue _) (MachineCore.m_conveyor m))
      (MachineCore.set_step_ticker
         (St.after StepTicker.DisableAllMotors
            (St.after (StepTicker.EnableStepperDrivers false)
               (MachineCore.m_step_ticker m)))
         (MachineCore.set_coolant
            (St.after MachineCore.CoolantController_Stop (MachineCore.m_coolant m))
            (MachineCore.set_spindle
               (St.after MachineCore.SpindleController_InmediateStop
                  (MachineCore.m_spindle m))
               (MachineCore.set_system_halted true m)))).
Proof.
  unfold St.after, MachineCore.Halt, MachineCore.on_conveyor,
    MachineCore.on_step_ticker, MachineCore.on_coolant, MachineCore.on_spindle.
  rewrite !bind_run, !zoom_run. reflexivity.
Qed.

Section MachineCoreFacts.
Context {X : MachineCore.Externals}.
Import MachineCore.


(** The four members a Halt settles. *)
Lemma Halt_settled_members (m : MachineCore.t) :
  m_system_halted (St.after Halt m) = true /\
  m_step_ticker (St.after Halt m)
  = StepTicker.set_motor_enable_bits 0
      (StepTicker.set_lines
         (StepTicker.mkDriverLines false
            (StepTicker.drivers_in_reset (StepTicker.lines (m_step_ticker m))))
         (m_step_ticker m)) /\
  m_conveyor (St.after Halt m)
  = Conveyor.mk (Conveyor.capacity (m_conveyor m)) [].
Proof. rewrite Halt_run. repeat split. Qed.

(** C2. [Halt()] twice in a row leaves the halted flag,
    [motor_enable_bits], the driver-enable line and the queue contents, and
    with them the whole StepTicker and the whole Conveyor, exactly as
    [Halt()] once leaves them. *)
Theorem Halt_idempotent (m : MachineCore.t) :
  let once := St.after Halt m in
  let twice := St.after Halt once in
  m_system_halted twice = m_system_halted once /\
  StepTicker.motor_enable_bits (m_step_ticker twice)
  = StepTicker.motor_enable_bits (m_step_ticker once) /\
  StepTicker.drivers_enabled (StepTicker.lines (m_step_ticker twice))
  = StepTicker.drivers_enabled (StepTicker.lines (m_step_ticker once)) /\
  Conveyor.queue (m_conveyor twice) = Conveyor.queue (m_conveyor once) /\
  m_step_ticker twice = m_step_ticker once /\
  m_conveyor twice = m_conveyor once.
Proof.
  intros once twice.
  destruct (Halt_settled_members m) as (Hh1 & Ht1 & Hc1).
  destruct (Halt_settled_members once) as (Hh2 & Ht2 & Hc2).
  fold once in Hh1, Ht1, Hc1. fold twice in Hh2, Ht2, Hc2.
  assert (Ht : m_step_ticker twice = m_step_ticker once)
    by (rewrite Ht2, Ht1; reflexivity).
  assert (Hc : m_conveyor twice = m_conveyor once)
    by (rewrite Hc2, Hc1; reflexivity).
  rewrite Ht, Hc, Hh1, Hh2. repeat split.
Qed.

(** C4. Whatever the interrupt-source mask and whatever the fault and
    limit pins read, [NotifyOfEvent] returns [pdFALSE] and leaves the
    machine, its input event group included, exactly as it was. *)
Theorem NotifyOfEvent_has_no_effect
    (it_evt_src : Z) (GLOBAL_FAULT LIM_X : GPIO_PinState) (m : MachineCore.t) :
  NotifyOfEvent it_evt_src GLOBAL_FAULT LIM_X m = (pdFALSE, m).
Proof.
  unfold NotifyOfEvent. rewrite !bind_run.
  destruct (negb (Z.land it_evt_src (Z.shiftl 1 6) =? 0));
    destruct (negb (Z.land it_evt_src (Z.shiftl 1 7) =? 0));
    destruct (negb (Z.land it_evt_src (Z.shiftl 1 8) =? 0));
    destruct GLOBAL_FAULT, LIM_X; reflexivity.
Qed.


(** C10. While [m_startup_finished] is false, [OnIdle()] returns with the
    machine untouched, so the Conveyor's idle hook has not run, and the
    button callback returns with the machine, its event group and the
    debounce counters untouched, whatever the buttons read.  Once
    [delayed_startup_callback] has run the flag is true and [OnIdle()]
    does run the Conveyor's idle hook. *)
Theorem nothing_happens_before_startup
    (p : ButtonPoll) (START_IDR HOLD_IDR ABORT_IDR : Z) :
  m_startup_finished (instance p) = false ->
  OnIdle (instance p) = (tt, instance p) /\
  read_user_buttons_callback START_IDR HOLD_IDR ABORT_IDR p = (tt, p) /\
  let started := St.after delayed_startup_callback (instance p) in
  m_startup_finished started = true /\
  St.after OnIdle started
  = set_conveyor (St.after Conveyor_on_idle (m_conveyor started)) started.
Proof.
  intros Hoff. split; [| split; [| split]].
  - unfold OnIdle. rewrite bind_run. cbn. rewrite Hoff. reflexivity.
  - unfold read_user_buttons_callback. rewrite bind_run. cbn.
    rewrite Hoff. reflexivity.
  - reflexivity.
  - unfold St.after, OnIdle, on_conveyor. rewrite bind_run. cbn.
    rewrite zoom_run. reflexivity.
Qed.

End MachineCoreFacts.

(** On the bench machine right after construction: the flag is false,
    all three buttons are held down with their counters at the firing
    point, and still neither call changes anything; after the startup
    callback the idle hook does run. *)
Lemma nothing_happens_before_startup_witness :
  MachineCore.m_startup_finished (MachineCore.instance poll_at_power_on) = false /\
  MachineCore.OnIdle machine_at_power_on = (tt, machine_at_power_on) /\
  MachineCore.read_user_buttons_callback 0 0 0 poll_at_power_on
  = (tt, poll_at_power_on) /\
  Conveyor.capacity
    (MachineCore.m_conveyor
       (St.after MachineCore.OnIdle
          (St.after MachineCore.delayed_startup_callback machine_at_power_on)))
  = 9%nat.
Proof.
  assert (Hoff : MachineCore.m_startup_finished
                   (MachineCore.instance poll_at_power_on) = false)
    by reflexivity.
  split; [exact Hoff |].
  destruct (@nothing_happens_before_startup bench poll_at_power_on 0 0 0 Hoff)
    as (Hidle & Hpoll & _ & Hlater).
  split; [exact Hidle |]. split; [exact Hpoll |].
  change (MachineCore.instance poll_at_power_on) with machine_at_power_on in Hlater.
  rewrite Hlater. reflexivity.
Defined.


(** ** Runs on the bench machine *)

(** A Halt of the bench machine in mid-motion: spindle and coolant off,
    drivers off, no motor bit left, nothing queued; the StepTicker still
    points into the Block it was stepping, at tick 37. *)
Example Halt_on_the_bench :
  St.after MachineCore.Halt machine_at_power_on
  = MachineCore.mk (X := bench) false true false 0 0 0 tt tt (Conveyor.mk 8 [])
      (StepTicker.mk 0x47C35000 1680 0 0 1 0 (Some 0x20000400) 37 true
         (StepTicker.mkDriverLines false false))
      false false 0.
Proof. reflexivity. Qed.

(** Once started, a poll with the start and abort buttons held down and
    their counters at 2 raises both events and clears both counters; the
    hold button, released, changes nothing. *)
Example buttons_fire_after_startup :
  let started :=
    MachineCore.mkButtonPoll
      (St.after MachineCore.delayed_startup_callback machine_at_power_on)
      [2; 2; 2] in
  let polled :=
    St.after (MachineCore.read_user_buttons_callback 0 (Z.shiftl 1 7) 0) started in
  MachineCore.m_input_events_group (MachineCore.instance polled) = 5 /\
  MachineCore.debounce_cntrs polled = [0; 2; 0].
Proof. split; reflexivity. Qed.

(** A button held down for three polls in a row fires on the third. *)
Example start_button_debounce :
  let started :=
    MachineCore.mkButtonPoll
      (St.after MachineCore.delayed_startup_callback machine_at_power_on)
      [0; 0; 0] in
  let poll := St.after (MachineCore.read_user_buttons_callback
                          0 (Z.shiftl 1 7) (Z.shiftl 1 8)) in
  MachineCore.m_input_events_group (MachineCore.instance (poll (poll started))) = 0 /\
  MachineCore.m_input_events_group
    (MachineCore.instance (poll (poll (poll started)))) = 1.
Proof. split; reflexivity. Qed.

(** * Further properties of the code *)

(** ** Running one member function after another *)

Lemma after_bind {S A B} (c : St.M S A) (k : St.M S B) (s : S) :
  St.after (c ;; k) s = St.after k (St.after c s).
Proof. unfold St.after. rewrite bind_run. reflexivity. Qed.

Lemma after_ret {S A} (a : A) (s : S) : St.after (St.ret a) s = s.
Proof. reflexivity. Qed.

Lemma after_bind_result {S A B} (c : St.M S A) (k : A -> St.M S B) (s : S) :
  St.after (St.bind c k) s = St.after (k (St.result c s)) (St.after c s).
Proof. unfold St.after, St.result. rewrite bind_run. reflexivity. Qed.

(** ** The motor enable bits as a set of axes *)

Section MotorBits.
Import StepTicker.

Lemma EnableMotor_frame (a : Z) (s : StepTicker.t) :
  St.after (EnableMotor a) s
  = set_motor_enable_bits (motor_enable_bits (St.after (EnableMotor a) s)) s.
Proof. reflexivity. Qed.

Lemma DisableMotor_frame (a : Z) (s : StepTicker.t) :
  St.after (DisableMotor a) s
  = set_motor_enable_bits (motor_enable_bits (St.after (DisableMotor a) s)) s.
Proof. reflexivity. Qed.

Lemma EnableMotor_uint8 (a : Z) (s : StepTicker.t) :
  is_uint8 (motor_enable_bits (St.after (EnableMotor a) s)).
Proof. apply to_uint8_range. Qed.

Lemma DisableMotor_uint8 (a : Z) (s : StepTicker.t) :
  is_uint8 (motor_enable_bits (St.after (DisableMotor a) s)).
Proof. apply to_uint8_range. Qed.

(** Two StepTickers that differ from a third in [motor_enable_bits] only
    and agree on its bits 0..7 are the same. *)
Lemma same_motor_bits (s s1 s2 : StepTicker.t) :
  s1 = set_motor_enable_bits (motor_enable_bits s1) s ->
  s2 = set_motor_enable_bits (motor_enable_bits s2) s ->
  is_uint8 (motor_enable_bits s1) -> is_uint8 (motor_enable_bits s2) ->
  (forall b, 0 <= b < 8 ->
     Z.testbit (motor_enable_bits s1) b = Z.testbit (motor_enable_bits s2) b) ->
  s1 = s2.
Proof.
  intros E1 E2 U1 U2 Hb.
  assert (Hbits : motor_enable_bits s1 = motor_enable_bits s2).
  { apply Z.bits_inj'. intros b Hpos.
    destruct (Z.lt_ge_cases b 8) as [Hlt | Hge]; [apply Hb; lia |].
    rewrite !uint8_high_bits by assumption. reflexivity. }
  rewrite E1, E2, Hbits. reflexivity.
Qed.

Lemma calls_cons (o : MotorOps.op) (rest : list MotorOps.op) (s : StepTicker.t) :
  St.after (MotorOps.calls (o :: rest)) s
  = St.after (MotorOps.calls rest) (St.after (MotorOps.call o) s).
Proof. cbn [MotorOps.calls]. apply after_bind. Qed.

Lemma call_uint8 (o : MotorOps.op) (s : StepTicker.t) :
  is_uint8 (motor_enable_bits (St.after (MotorOps.call o) s)).
Proof.
  destruct o; cbn [MotorOps.call];
    [apply to_uint8_range | apply to_uint8_range | cbn; unfold is_uint8; lia].
Qed.

Lemma call_frame (o : MotorOps.op) (s : StepTicker.t) :
  St.after (MotorOps.call o) s
  = set_motor_enable_bits (motor_enable_bits (St.after (MotorOps.call o) s)) s.
Proof. destruct o; reflexivity. Qed.

(** X1. From a [uint8_t] value of [motor_enable_bits], after any series
    of [EnableMotor], [DisableMotor] (axes 0..7) and [DisableAllMotors]
    calls, bit [a] is set exactly when the last call that concerned axis
    [a] was an [EnableMotor(a)] (or, with no such call, when it was set
    before); the value is still a [uint8_t], no other member has changed,
    and [AreMotorsStillMoving()] is true exactly when some axis is left
    enabled in that sense. *)
Theorem motor_enable_bits_follow_last_call (os : list MotorOps.op) (s : StepTicker.t) :
  Forall MotorOps.axis_in_range os ->
  is_uint8 (motor_enable_bits s) ->
  let s' := St.after (MotorOps.calls os) s in
  is_uint8 (motor_enable_bits s') /\
  (forall a, 0 <= a < 8 ->
     Z.testbit (motor_enable_bits s') a
     = MotorOps.enabled_after os a (Z.testbit (motor_enable_bits s) a)) /\
  s' = set_motor_enable_bits (motor_enable_bits s') s /\
  (St.result AreMotorsStillMoving s' = true <->
   exists a, 0 <= a < 8 /\
     MotorOps.enabled_after os a (Z.testbit (motor_enable_bits s) a) = true).
Proof.
  intros Hos Hs s'.
  assert (Hmain :
    is_uint8 (motor_enable_bits s') /\
    (forall a, 0 <= a < 8 ->
       Z.testbit (motor_enable_bits s') a
       = MotorOps.enabled_after os a (Z.testbit (motor_enable_bits s) a)) /\
    s' = set_motor_enable_bits (motor_enable_bits s') s).
  { subst s'. revert s Hs. induction Hos as [| o rest Ho _ IH]; intros s Hs.
    - cbn. split; [exact Hs |]. split; [reflexivity | destruct s; reflexivity].
    - rewrite calls_cons.
      destruct (IH (St.after (MotorOps.call o) s) (call_uint8 o s))
        as (IHu & IHb & IHf).
      split; [exact IHu |]. split.
      + intros a Ha. rewrite (IHb a Ha).
        destruct o as [axis | axis |];
          cbn [MotorOps.call MotorOps.enabled_after]; f_equal.
        * apply EnableMotor_bits; assumption.
        * apply DisableMotor_bits; assumption.
        * cbn. apply Z.testbit_0_l.
      + rewrite IHf at 1. rewrite (call_frame o s). reflexivity. }
  destruct Hmain as (Hu & Hb & Hf).
  split; [exact Hu |]. split; [exact Hb |]. split; [exact Hf |].
  transitivity (motor_enable_bits s' <> 0).
  - cbn. destruct (Z.eqb_spec (motor_enable_bits s') 0) as [E | E]; cbn.
    + split; [discriminate | congruence].
    + split; [intros _; exact E | reflexivity].
  - rewrite (nonzero_has_bit (motor_enable_bits s') Hu). split.
    + intros (a & Ha & Hbit). exists a. split; [exact Ha |].
      rewrite <- (Hb a Ha). exact Hbit.
    + intros (a & Ha & Hen). exists a. split; [exact Ha |].
      rewrite (Hb a Ha). exact Hen.
Qed.

(** On the StepTicker in motion (X and Z enabled): enable Y, disable X,
    disable all, enable Z.  Only Z is left enabled. *)
Lemma motor_enable_bits_follow_last_call_witness :
  (Forall MotorOps.axis_in_range
     [MotorOps.Enable 1; MotorOps.Disable 0; MotorOps.DisableAll; MotorOps.Enable 2] /\
   is_uint8 (motor_enable_bits ticker_in_motion)) /\
  Z.testbit
    (motor_enable_bits
       (St.after
          (MotorOps.calls
             [MotorOps.Enable 1; MotorOps.Disable 0; MotorOps.DisableAll;
              MotorOps.Enable 2])
          ticker_in_motion)) 2
  = true.
Proof.
  assert (Hos : Forall MotorOps.axis_in_range
            [MotorOps.Enable 1; MotorOps.Disable 0; MotorOps.DisableAll;
             MotorOps.Enable 2])
    by (repeat constructor; cbn; lia).
  assert (Hs : is_uint8 (motor_enable_bits ticker_in_motion))
    by (unfold is_uint8; simpl; lia).
  split; [split; assumption |].
  destruct (motor_enable_bits_follow_last_call _ ticker_in_motion Hos Hs)
    as (_ & Hb & _).
  rewrite (Hb 2) by lia. reflexivity.
Defined.

(** X2. An axis number from 8 to 30 is silently ignored: on a [uint8_t]
    value of [motor_enable_bits], [EnableMotor] and [DisableMotor] with
    such an axis leave the StepTicker exactly as it was, so the axis is
    never reported by [AreMotorsStillMoving()]. *)
Theorem motor_axis_out_of_range_ignored (axis : Z) (s : StepTicker.t) :
  8 <= axis <= 30 ->
  is_uint8 (motor_enable_bits s) ->
  St.after (EnableMotor axis) s = s /\
  St.after (DisableMotor axis) s = s /\
  St.result AreMotorsStillMoving (St.after (EnableMotor axis) s)
  = St.result AreMotorsStillMoving s.
Proof.
  intros Ha Hs.
  assert (He : St.after (EnableMotor axis) s = s).
  { apply (same_motor_bits s);
      [apply EnableMotor_frame | symmetry; apply set_motor_enable_bits_same
      | apply EnableMotor_uint8 | exact Hs |].
    intros b Hb. cbn. rewrite to_uint8_testbit, Z.lor_spec, shiftl_1_testbit by lia.
    destruct (Z.ltb_spec b 8); [| lia].
    destruct (Z.eqb_spec b axis); [lia |]. apply Bool.orb_false_r. }
  assert (Hd : St.after (DisableMotor axis) s = s).
  { apply (same_motor_bits s);
      [apply DisableMotor_frame | symmetry; apply set_motor_enable_bits_same
      | apply DisableMotor_uint8 | exact Hs |].
    intros b Hb. cbn.
    rewrite to_uint8_testbit, Z.land_spec, Z.lnot_spec, shiftl_1_testbit by lia.
    destruct (Z.ltb_spec b 8); [| lia].
    destruct (Z.eqb_spec b axis); [lia |]. apply Bool.andb_true_r. }
  split; [exact He |]. split; [exact Hd |]. rewrite He. reflexivity.
Qed.

(** With all motors off, enabling "axis 8" leaves them all off. *)
Lemma motor_axis_out_of_range_ignored_witness :
  (8 <= 8 <= 30 /\
   is_uint8 (motor_enable_bits (St.after DisableAllMotors ticker_in_motion))) /\
  St.result AreMotorsStillMoving
    (St.after (EnableMotor 8) (St.after DisableAllMotors ticker_in_motion))
  = false.
Proof.
  assert (Ha : 8 <= 8 <= 30) by lia.
  assert (Hs : is_uint8 (motor_enable_bits (St.after DisableAllMotors ticker_in_motion)))
    by (unfold is_uint8; simpl; lia).
  split; [split; assumption |].
  destruct (motor_axis_out_of_range_ignored 8 _ Ha Hs) as (_ & _ & Hq).
  rewrite Hq. reflexivity.
Defined.

(** X3. On a [uint8_t] value and for axes 0..7, [EnableMotor(a)] and
    [DisableMotor(a)] are each idempotent, the later of the two on the
    same axis wins, and calls on different axes commute. *)
Theorem motor_calls_compose (a b : Z) (s : StepTicker.t) :
  0 <= a < 8 -> 0 <= b < 8 ->
  is_uint8 (motor_enable_bits s) ->
  St.after (EnableMotor a) (St.after (EnableMotor a) s) = St.after (EnableMotor a) s /\
  St.after (DisableMotor a) (St.after (DisableMotor a) s) = St.after (DisableMotor a) s /\
  St.after (EnableMotor a) (St.after (DisableMotor a) s) = St.after (EnableMotor a) s /\
  St.after (DisableMotor a) (St.after (EnableMotor a) s) = St.after (DisableMotor a) s /\
  (a <> b ->
   St.after (EnableMotor a) (St.after (EnableMotor b) s)
   = St.after (EnableMotor b) (St.after (EnableMotor a) s) /\
   St.after (DisableMotor a) (St.after (DisableMotor b) s)
   = St.after (DisableMotor b) (St.after (DisableMotor a) s) /\
   St.after (EnableMotor a) (St.after (DisableMotor b) s)
   = St.after (DisableMotor b) (St.after (EnableMotor a) s)).
Proof.
  intros Ha Hb Hs.
  assert (Hext : forall s1 s2 : StepTicker.t,
            s1 = set_motor_enable_bits (motor_enable_bits s1) s ->
            s2 = set_motor_enable_bits (motor_enable_bits s2) s ->
            is_uint8 (motor_enable_bits s1) -> is_uint8 (motor_enable_bits s2) ->
            (forall i, Z.testbit (motor_enable_bits s1) i
                       = Z.testbit (motor_enable_bits s2) i) ->
            s1 = s2).
  { intros s1 s2 E1 E2 U1 U2 Hi. apply (same_motor_bits s); auto. }
  assert (HuE : forall x t, is_uint8 (motor_enable_bits (St.after (EnableMotor x) t)))
    by (intros; apply to_uint8_range).
  assert (HuD : forall x t, is_uint8 (motor_enable_bits (St.after (DisableMotor x) t)))
    by (intros; apply to_uint8_range).
  repeat split; try intros Hne;
    (apply Hext; [reflexivity | reflexivity | apply to_uint8_range
                  | apply to_uint8_range |]);
    intros i;
    repeat first [rewrite EnableMotor_bits by auto
                 | rewrite DisableMotor_bits by auto];
    destruct (Z.eqb_spec i a), (Z.eqb_spec i b); try reflexivity; congruence.
Qed.

(** On the StepTicker in motion: disabling the Z motor and enabling the
    Y motor, in either order. *)
Lemma motor_calls_compose_witness :
  (0 <= 1 < 8 /\ 0 <= 2 < 8 /\ is_uint8 (motor_enable_bits ticker_in_motion)) /\
  St.after (EnableMotor 1) (St.after (DisableMotor 2) ticker_in_motion)
  = St.after (DisableMotor 2) (St.after (EnableMotor 1) ticker_in_motion).
Proof.
  assert (Ha : 0 <= 1 < 8) by lia.
  assert (Hb : 0 <= 2 < 8) by lia.
  assert (Hs : is_uint8 (motor_enable_bits ticker_in_motion))
    by (unfold is_uint8; simpl; lia).
  split; [split; [exact Ha | split; [exact Hb | exact Hs]] |].
  destruct (motor_calls_compose 1 2 ticker_in_motion Ha Hb Hs)
    as (_ & _ & _ & _ & Hcomm).
  destruct Hcomm as (_ & _ & H); [lia | exact H].
Defined.

End MotorBits.

(** ** The button poller *)

Section ButtonFacts.
Context {X : MachineCore.Externals}.
Import MachineCore.

Lemma array_set_length (i : nat) (v : Z) (a : list Z) :
  length (array_set i v a) = length a.
Proof.
  revert i. induction a as [| x r IH]; intros i; [destruct i; reflexivity |].
  destruct i; cbn; [reflexivity | rewrite IH; reflexivity].
Qed.

Lemma events_kept_refl (e : EventBits_t) : Schedule.events_kept e e.
Proof. intros b H. exact H. Qed.

Lemma events_kept_trans (e1 e2 e3 : EventBits_t) :
  Schedule.events_kept e1 e2 -> Schedule.events_kept e2 e3 ->
  Schedule.events_kept e1 e3.
Proof. intros H12 H23 b H. apply H23, H12, H. Qed.

Lemma events_kept_lor (e bits : EventBits_t) : Schedule.events_kept e (Z.lor e bits).
Proof. intros b H. rewrite Z.lor_spec, H. reflexivity. Qed.

Lemma only_events_raised_refl (p : ButtonPoll) : Schedule.only_events_raised p p.
Proof.
  split; [destruct p as [[] ?]; reflexivity |].
  split; [apply events_kept_refl | reflexivity].
Qed.

Lemma only_events_raised_trans (p1 p2 p3 : ButtonPoll) :
  Schedule.only_events_raised p1 p2 -> Schedule.only_events_raised p2 p3 ->
  Schedule.only_events_raised p1 p3.
Proof.
  intros (E12 & K12 & L12) (E23 & K23 & L23). split; [| split].
  - rewrite E23, E12. reflexivity.
  - eapply events_kept_trans; eassumption.
  - congruence.
Qed.

(** One of the three blocks of the callback, for the button with counter
    [i], pin mask [pin] and event [event]. *)
Lemma button_block_only_raises (i : nat) (idr pin : Z) (event : EventBits_t)
    (p : ButtonPoll) :
  Schedule.only_events_raised p
    (St.after
       (if Z.land idr pin =? 0 then
          c <- St.gets (fun p => array_get i (debounce_cntrs p)) ;;
          if c <? 2 then St.modify (set_debounce_cntr i (to_uint32 (c + 1)))
          else
            on_instance (on_input_events_group (xEventGroupSetBits event)) ;;
            St.modify (set_debounce_cntr i 0)
        else St.ret tt) p).
Proof.
  destruct (Z.land idr pin =? 0); [| apply only_events_raised_refl].
  rewrite after_bind_result. cbn [St.after St.result St.gets snd fst].
  destruct (array_get i (debounce_cntrs p) <? 2).
  - cbn. split; [destruct p as [[] ?]; reflexivity |].
    split; [apply events_kept_refl | apply array_set_length].
  - rewrite after_bind. unfold St.after, on_instance, on_input_events_group.
    rewrite !zoom_run. cbn.
    split; [destruct p as [[] ?]; reflexivity |].
    split; [apply events_kept_lor | apply array_set_length].
Qed.

Lemma read_user_buttons_keeps
    (START_IDR HOLD_IDR ABORT_IDR : Z) (p : ButtonPoll) :
  Schedule.only_events_raised p
    (St.after (read_user_buttons_callback START_IDR HOLD_IDR ABORT_IDR) p).
Proof.
  unfold read_user_buttons_callback. rewrite after_bind_result.
  cbn [St.after St.result St.gets snd fst].
  destruct (Bool.eqb (m_startup_finished (instance p)) false);
    [apply only_events_raised_refl |].
  rewrite !after_bind.
  eapply only_events_raised_trans; [apply (button_block_only_raises 0) |].
  eapply only_events_raised_trans; [apply (button_block_only_raises 1) |].
  apply (button_block_only_raises 2).
Qed.

(** X4. Whatever the machine state and whatever the three ports read,
    [read_user_buttons_callback] changes nothing of the machine but its
    input event group, never clears an event bit that was set, and keeps
    the size of its counter array. *)
Theorem read_user_buttons_only_raises_events
    (START_IDR HOLD_IDR ABORT_IDR : Z) (p : ButtonPoll) :
  let p' := St.after (read_user_buttons_callback START_IDR HOLD_IDR ABORT_IDR) p in
  instance p'
  = set_input_events_group (m_input_events_group (instance p')) (instance p) /\
  (forall b, Z.testbit (m_input_events_group (instance p)) b = true ->
             Z.testbit (m_input_events_group (instance p')) b = true) /\
  length (debounce_cntrs p') = length (debounce_cntrs p).
Proof. intros p'. exact (read_user_buttons_keeps START_IDR HOLD_IDR ABORT_IDR p). Qed.

End ButtonFacts.

Section DebounceFacts.
Context {X : MachineCore.Externals}.
Import MachineCore.

Lemma set_input_events_group_same (m : MachineCore.t) :
  set_input_events_group (m_input_events_group m) m = m.
Proof. destruct m; reflexivity. Qed.

Lemma array_set_get (i : nat) (a : list Z) : array_set i (array_get i a) a = a.
Proof.
  revert i. induction a as [| x r IH]; intros i; [destruct i; reflexivity |].
  destruct i; cbn; [reflexivity |]. f_equal. apply IH.
Qed.

(** One of the three blocks of the callback, run. *)
Lemma button_block_run (i : nat) (idr pin : Z) (event : EventBits_t)
    (p : ButtonPoll) :
  St.after
    (if Z.land idr pin =? 0 then
       c <- St.gets (fun p => array_get i (debounce_cntrs p)) ;;
       if c <? 2 then St.modify (set_debounce_cntr i (to_uint32 (c + 1)))
       else
         on_instance (on_input_events_group (xEventGroupSetBits event)) ;;
         St.modify (set_debounce_cntr i 0)
     else St.ret tt) p
  = mkButtonPoll
      (set_input_events_group
         (Z.lor (m_input_events_group (instance p))
            (Schedule.fired event (Schedule.reads_low idr pin)
               (array_get i (debounce_cntrs p))))
         (instance p))
      (array_set i
         (Schedule.next_count (Schedule.reads_low idr pin)
            (array_get i (debounce_cntrs p)))
         (debounce_cntrs p)).
Proof.
  unfold Schedule.reads_low, Schedule.fired, Schedule.next_count.
  destruct (Z.land idr pin =? 0).
  - rewrite after_bind_result. cbn [St.after St.result St.gets snd fst].
    destruct (array_get i (debounce_cntrs p) <? 2).
    + cbn. rewrite Z.lor_0_r, set_input_events_group_same. reflexivity.
    + rewrite after_bind. unfold St.after, on_instance, on_input_events_group.
      rewrite !zoom_run. reflexivity.
  - rewrite after_ret, Z.lor_0_r, set_input_events_group_same, array_set_get.
    destruct p; reflexivity.
Qed.

(** One run of the callback on a started machine, the three blocks
    together. *)
Lemma read_user_buttons_started
    (START_IDR HOLD_IDR ABORT_IDR : Z) (m : MachineCore.t) (c0 c1 c2 : Z) :
  m_startup_finished m = true ->
  St.after (read_user_buttons_callback START_IDR HOLD_IDR ABORT_IDR)
    (mkButtonPoll m [c0; c1; c2])
  = mkButtonPoll
      (set_input_events_group
         (Z.lor (Z.lor (Z.lor (m_input_events_group m)
            (Schedule.fired BTN_START_EVENT
               (Schedule.reads_low START_IDR BTN_START_Pin) c0))
            (Schedule.fired BTN_HOLD_EVENT
               (Schedule.reads_low HOLD_IDR BTN_HOLD_Pin) c1))
            (Schedule.fired BTN_ABORT_EVENT
               (Schedule.reads_low ABORT_IDR BTN_ABORT_Pin) c2))
         m)
      [Schedule.next_count (Schedule.reads_low START_IDR BTN_START_Pin) c0;
       Schedule.next_count (Schedule.reads_low HOLD_IDR BTN_HOLD_Pin) c1;
       Schedule.next_count (Schedule.reads_low ABORT_IDR BTN_ABORT_Pin) c2].
Proof.
  intros Hon. unfold read_user_buttons_callback.
  rewrite after_bind_result. cbn [St.after St.result St.gets snd fst instance].
  rewrite Hon. cbn [Bool.eqb]. rewrite !after_bind.
  rewrite (button_block_run 0), (button_block_run 1), (button_block_run 2).
  reflexivity.
Qed.

Lemma seen_low_cons (pin idr : Z) (rest : list Z) :
  Schedule.seen_low pin (idr :: rest)
  = (if Schedule.reads_low idr pin then 1 else 0) + Schedule.seen_low pin rest.
Proof.
  unfold Schedule.seen_low, Schedule.reads_low. cbn [filter].
  destruct (Z.land idr pin =? 0); cbn [length]; lia.
Qed.

Lemma seen_low_nonneg (pin : Z) (idrs : list Z) : 0 <= Schedule.seen_low pin idrs.
Proof. unfold Schedule.seen_low. lia. Qed.

(** One button over one run followed by [n] more low readings. *)
Lemma debounce_step (event : EventBits_t) (low : bool) (c n : Z) :
  0 <= c <= 2 -> 0 <= n ->
  0 <= Schedule.next_count low c <= 2 /\
  Z.lor (Schedule.fired event low c)
        (Schedule.raised event (Schedule.next_count low c) n)
  = Schedule.raised event c ((if low then 1 else 0) + n) /\
  (Schedule.next_count low c + n) mod 3 = (c + ((if low then 1 else 0) + n)) mod 3.
Proof.
  intros Hc Hn. unfold Schedule.next_count, Schedule.fired, Schedule.raised.
  destruct low; [| split; [lia | split; [apply Z.lor_0_l | reflexivity]]].
  destruct (Z.ltb_spec c 2) as [Hlt | Hge].
  - assert (Hup : to_uint32 (c + 1) = c + 1)
      by (unfold to_uint32; apply Z.mod_small; lia).
    rewrite Hup. split; [lia |]. split.
    + rewrite Z.lor_0_l.
      destruct (Z.leb_spec 3 (c + 1 + n)), (Z.leb_spec 3 (c + (1 + n)));
        try reflexivity; lia.
    + f_equal. lia.
  - assert (c = 2) as -> by lia. split; [lia |]. split.
    + destruct (Z.leb_spec 3 (2 + (1 + n))); [| lia].
      destruct (3 <=? 0 + n); [apply Z.lor_diag | apply Z.lor_0_r].
    + replace (2 + (1 + n)) with (0 + n + 1 * 3) by lia.
      rewrite Z_mod_plus_full. reflexivity.
Qed.

Lemma lor_regroup (e f0 f1 f2 r0 r1 r2 : Z) :
  Z.lor (Z.lor (Z.lor (Z.lor (Z.lor (Z.lor e f0) f1) f2) r0) r1) r2
  = Z.lor (Z.lor (Z.lor e (Z.lor f0 r0)) (Z.lor f1 r1)) (Z.lor f2 r2).
Proof.
  apply Z.bits_inj'. intros b _. rewrite !Z.lor_spec.
  destruct (Z.testbit e b), (Z.testbit f0 b), (Z.testbit f1 b), (Z.testbit f2 b),
    (Z.testbit r0 b), (Z.testbit r1 b), (Z.testbit r2 b); reflexivity.
Qed.

(** X5. On a started machine whose three counters lie in 0..2, after any
    number of runs of the button callback each counter has advanced by
    the number of runs in which its pin read low, modulo 3, and a
    button's event bits have been raised exactly when counter plus low
    readings reached 3; runs in which the pin read high neither count nor
    reset the counter, so the low readings need not be consecutive.
    Nothing else in the machine has changed. *)
Theorem button_polls_count_low_readings
    (reads : list (Z * Z * Z)) (m : MachineCore.t) (c0 c1 c2 : Z) :
  m_startup_finished m = true ->
  0 <= c0 <= 2 -> 0 <= c1 <= 2 -> 0 <= c2 <= 2 ->
  let n0 := Schedule.seen_low BTN_START_Pin (Schedule.START_reads reads) in
  let n1 := Schedule.seen_low BTN_HOLD_Pin (Schedule.HOLD_reads reads) in
  let n2 := Schedule.seen_low BTN_ABORT_Pin (Schedule.ABORT_reads reads) in
  St.after (Schedule.button_polls reads) (mkButtonPoll m [c0; c1; c2])
  = mkButtonPoll
      (set_input_events_group
         (Z.lor (Z.lor (Z.lor (m_input_events_group m)
            (Schedule.raised BTN_START_EVENT c0 n0))
            (Schedule.raised BTN_HOLD_EVENT c1 n1))
            (Schedule.raised BTN_ABORT_EVENT c2 n2))
         m)
      [(c0 + n0) mod 3; (c1 + n1) mod 3; (c2 + n2) mod 3].
Proof.
  revert m c0 c1 c2.
  induction reads as [| [[START_IDR HOLD_IDR] ABORT_IDR] rest IH];
    intros m c0 c1 c2 Hon H0 H1 H2 n0 n1 n2.
  - subst n0 n1 n2. cbn [Schedule.button_polls Schedule.START_reads
      Schedule.HOLD_reads Schedule.ABORT_reads map]. rewrite after_ret.
    unfold Schedule.seen_low, Schedule.raised. cbn [filter length Z.of_nat].
    rewrite !Z.add_0_r.
    destruct (Z.leb_spec 3 c0); [lia |]. destruct (Z.leb_spec 3 c1); [lia |].
    destruct (Z.leb_spec 3 c2); [lia |].
    rewrite !Z.lor_0_r, set_input_events_group_same, !Z.mod_small by lia.
    reflexivity.
  - cbn [Schedule.button_polls]. rewrite after_bind.
    rewrite (read_user_buttons_started START_IDR HOLD_IDR ABORT_IDR m c0 c1 c2 Hon).
    subst n0 n1 n2.
    cbn [Schedule.START_reads Schedule.HOLD_reads Schedule.ABORT_reads map fst snd].
    rewrite !seen_low_cons.
    fold (Schedule.START_reads rest) (Schedule.HOLD_reads rest)
      (Schedule.ABORT_reads rest).
    pose proof (seen_low_nonneg BTN_START_Pin (Schedule.START_reads rest)) as N0.
    pose proof (seen_low_nonneg BTN_HOLD_Pin (Schedule.HOLD_reads rest)) as N1.
    pose proof (seen_low_nonneg BTN_ABORT_Pin (Schedule.ABORT_reads rest)) as N2.
    destruct (debounce_step BTN_START_EVENT
                (Schedule.reads_low START_IDR BTN_START_Pin) c0 _ H0 N0)
      as (R0 & E0 & M0).
    destruct (debounce_step BTN_HOLD_EVENT
                (Schedule.reads_low HOLD_IDR BTN_HOLD_Pin) c1 _ H1 N1)
      as (R1 & E1 & M1).
    destruct (debounce_step BTN_ABORT_EVENT
                (Schedule.reads_low ABORT_IDR BTN_ABORT_Pin) c2 _ H2 N2)
      as (R2 & E2 & M2).
    rewrite IH by (assumption || reflexivity).
    cbn [m_input_events_group set_input_events_group].
    rewrite lor_regroup, E0, E1, E2, M0, M1, M2. reflexivity.
Qed.

End DebounceFacts.

(** On the bench machine, started, counters at zero: the start button
    reads low in four runs out of five, with a high reading in between,
    and abort in two.  The start event (bit 0) is raised, the abort event
    is not, and the counters stand at 1, 0 and 2. *)
Lemma button_polls_count_low_readings_witness :
  (MachineCore.m_startup_finished
     (St.after MachineCore.delayed_startup_callback machine_at_power_on) = true /\
   0 <= 0 <= 2) /\
  St.after
    (Schedule.button_polls
       [(0, 448, 0); (0, 448, 448); (448, 448, 0); (0, 448, 448); (0, 448, 448)])
    (MachineCore.mkButtonPoll
       (St.after MachineCore.delayed_startup_callback machine_at_power_on) [0; 0; 0])
  = MachineCore.mkButtonPoll
      (MachineCore.set_input_events_group 1
         (St.after MachineCore.delayed_startup_callback machine_at_power_on))
      [1; 0; 2].
Proof.
  assert (Hon : MachineCore.m_startup_finished
                  (St.after MachineCore.delayed_startup_callback machine_at_power_on)
                = true) by reflexivity.
  assert (Hc : 0 <= 0 <= 2) by lia.
  split; [split; assumption |].
  rewrite (@button_polls_count_low_readings bench
             [(0, 448, 0); (0, 448, 448); (448, 448, 0); (0, 448, 448); (0, 448, 448)]
             _ 0 0 0 Hon Hc Hc Hc).
  reflexivity.
Defined.

(** ** Entry points in any order *)

Section ScheduleFacts.
Context {X : MachineCore.Externals}.
Import MachineCore.

Lemma on_instance_run {A} (c : St.M MachineCore.t A) (p : ButtonPoll) :
  St.after (on_instance c) p
  = mkButtonPoll (St.after c (instance p)) (debounce_cntrs p).
Proof. unfold St.after, on_instance. rewrite zoom_run. reflexivity. Qed.

Lemma OnIdle_run (m : MachineCore.t) :
  St.after OnIdle m
  = if m_startup_finished m
    then set_conveyor (St.after Conveyor_on_idle (m_conveyor m)) m
    else m.
Proof.
  unfold OnIdle. rewrite after_bind_result. cbn [St.after St.result St.gets fst snd].
  destruct (m_startup_finished m); cbn [Bool.eqb]; [| reflexivity].
  unfold St.after, on_conveyor. rewrite zoom_run. reflexivity.
Qed.

Lemma NotifyOfEvent_run
    (it_evt_src : Z) (GLOBAL_FAULT LIM_X : GPIO_PinState) (m : MachineCore.t) :
  St.after (_ <- NotifyOfEvent it_evt_src GLOBAL_FAULT LIM_X ;; St.ret tt) m = m.
Proof.
  unfold St.after, NotifyOfEvent. rewrite !bind_run.
  destruct (negb (Z.land it_evt_src (Z.shiftl 1 6) =? 0));
    destruct (negb (Z.land it_evt_src (Z.shiftl 1 7) =? 0));
    destruct (negb (Z.land it_evt_src (Z.shiftl 1 8) =? 0));
    destruct GLOBAL_FAULT, LIM_X; reflexivity.
Qed.

Lemma steppers_idle_timeout_run (m : MachineCore.t) :
  St.after steppers_idle_timeout_callback m
  = set_step_ticker
      (St.after (StepTicker.EnableStepperDrivers false) (m_step_ticker m)) m.
Proof.
  unfold St.after, steppers_idle_timeout_callback, on_step_ticker.
  rewrite zoom_run. reflexivity.
Qed.

Lemma delayed_startup_run (m : MachineCore.t) :
  St.after delayed_startup_callback m
  = set_startup_finished true
      (set_step_ticker
         (St.after (StepTicker.ResetStepperDrivers false) (m_step_ticker m)) m).
Proof.
  unfold delayed_startup_callback. rewrite after_bind.
  unfold St.after, on_step_ticker. rewrite zoom_run. reflexivity.
Qed.

Lemma nothing_undone_refl (p : ButtonPoll) : Schedule.nothing_undone p p.
Proof. unfold Schedule.nothing_undone. repeat split; auto using events_kept_refl. Qed.

Lemma nothing_undone_trans (p1 p2 p3 : ButtonPoll) :
  Schedule.nothing_undone p1 p2 -> Schedule.nothing_undone p2 p3 ->
  Schedule.nothing_undone p1 p3.
Proof.
  unfold Schedule.nothing_undone.
  intros (A1 & A2 & A3 & A4 & A5 & A6 & A7 & A8 & A9 & A10)
         (B1 & B2 & B3 & B4 & B5 & B6 & B7 & B8 & B9 & B10).
  repeat split; try congruence; auto.
  eapply events_kept_trans; eassumption.
Qed.

Lemma enter_nothing_undone (e : Schedule.Entry) (p : ButtonPoll) :
  Schedule.nothing_undone p (St.after (Schedule.enter e) p).
Proof.
  destruct e as [| | src fault limx | | | a b c]; cbn [Schedule.enter].
  - rewrite on_instance_run, OnIdle_run. unfold Schedule.nothing_undone.
    destruct (m_startup_finished (instance p)) eqn:E; cbn;
      repeat split; auto using events_kept_refl; congruence.
  - rewrite on_instance_run, Halt_run. unfold Schedule.nothing_undone. cbn.
    repeat split; auto using events_kept_refl.
  - rewrite on_instance_run, NotifyOfEvent_run. destruct p. apply nothing_undone_refl.
  - rewrite on_instance_run, steppers_idle_timeout_run.
    unfold Schedule.nothing_undone. cbn. repeat split; auto using events_kept_refl.
  - rewrite on_instance_run, delayed_startup_run.
    unfold Schedule.nothing_undone. cbn. repeat split; auto using events_kept_refl.
  - destruct (read_user_buttons_keeps a b c p) as (E & K & L).
    unfold Schedule.nothing_undone. rewrite E. cbn.
    repeat split; auto.
Qed.

Lemma enter_all_cons (e : Schedule.Entry) (rest : list Schedule.Entry) (p : ButtonPoll) :
  St.after (Schedule.enter_all (e :: rest)) p
  = St.after (Schedule.enter_all rest) (St.after (Schedule.enter e) p).
Proof. cbn [Schedule.enter_all]. apply after_bind. Qed.

Lemma enter_all_nothing_undone (es : list Schedule.Entry) (p : ButtonPoll) :
  Schedule.nothing_undone p (St.after (Schedule.enter_all es) p).
Proof.
  revert p. induction es as [| e rest IH]; intros p.
  - apply nothing_undone_refl.
  - rewrite enter_all_cons.
    eapply nothing_undone_trans; [apply enter_nothing_undone | apply IH].
Qed.

(** X6. Run the entry points of MachineCore.cpp ([OnIdle], [Halt],
    [NotifyOfEvent], the three timer callbacks) in any order, any number
    of times, with any arguments and pin readings.  Then: a machine that
    was halted is still halted and one that had started is still started;
    if the series contains a [Halt] the machine ends halted, if it
    contains the startup callback it ends started; [m_feed_hold], the two
    homing masks, the G-code source, the parser and the planner are as
    they were; no event bit has been cleared; and the counter array has
    kept its size. *)
Theorem entry_points_undo_nothing (es : list Schedule.Entry) (p : ButtonPoll) :
  let p' := St.after (Schedule.enter_all es) p in
  Schedule.nothing_undone p p' /\
  (existsb Schedule.is_halt es = true -> m_system_halted (instance p') = true) /\
  (existsb Schedule.is_startup es = true -> m_startup_finished (instance p') = true).
Proof.
  intros p'. split; [apply enter_all_nothing_undone |]. subst p'.
  split; revert p; induction es as [| e rest IH]; intros p; cbn [existsb];
    try discriminate; rewrite enter_all_cons; intros H.
  - destruct (Schedule.is_halt e) eqn:Eh.
    + destruct e; try discriminate Eh.
      apply (enter_all_nothing_undone rest). cbn [Schedule.enter].
      rewrite on_instance_run, Halt_run. reflexivity.
    + apply IH. exact H.
  - destruct (Schedule.is_startup e) eqn:Es.
    + destruct e; try discriminate Es.
      apply (enter_all_nothing_undone rest). cbn [Schedule.enter].
      rewrite on_instance_run, delayed_startup_run. reflexivity.
    + apply IH. exact H.
Qed.

(** X7. As long as [delayed_startup_callback] has not run, no series of
    [OnIdle], [Halt], [NotifyOfEvent], [steppers_idle_timeout_callback]
    and [read_user_buttons_callback] calls, in any order and with any
    inputs, raises an event, moves a debounce counter or sets the startup
    flag; and unless a [Halt] is among them, the Conveyor, the spindle,
    the coolant and the halted flag are untouched as well.
    ([Initialize] is not one of the five: it starts the Conveyor.) *)
Theorem nothing_before_startup (es : list Schedule.Entry) (p : ButtonPoll) :
  m_startup_finished (instance p) = false ->
  forallb (fun e => negb (Schedule.is_startup e)) es = true ->
  let p' := St.after (Schedule.enter_all es) p in
  m_startup_finished (instance p') = false /\
  m_input_events_group (instance p') = m_input_events_group (instance p) /\
  debounce_cntrs p' = debounce_cntrs p /\
  (existsb Schedule.is_halt es = false ->
   m_conveyor (instance p') = m_conveyor (instance p) /\
   m_spindle (instance p') = m_spindle (instance p) /\
   m_coolant (instance p') = m_coolant (instance p) /\
   m_system_halted (instance p') = m_system_halted (instance p)).
Proof.
  revert p. induction es as [| e rest IH]; intros p Hoff Hes p'; subst p'.
  - cbn. repeat split; assumption.
  - rewrite enter_all_cons. cbn [forallb existsb] in *.
    apply Bool.andb_true_iff in Hes. destruct Hes as [He Hrest].
    assert (Hstep :
      m_startup_finished (instance (St.after (Schedule.enter e) p)) = false /\
      m_input_events_group (instance (St.after (Schedule.enter e) p))
      = m_input_events_group (instance p) /\
      debounce_cntrs (St.after (Schedule.enter e) p) = debounce_cntrs p /\
      (Schedule.is_halt e = false ->
       m_conveyor (instance (St.after (Schedule.enter e) p)) = m_conveyor (instance p) /\
       m_spindle (instance (St.after (Schedule.enter e) p)) = m_spindle (instance p) /\
       m_coolant (instance (St.after (Schedule.enter e) p)) = m_coolant (instance p) /\
       m_system_halted (instance (St.after (Schedule.enter e) p))
       = m_system_halted (instance p))).
    { destruct e as [| | src fault limx | | | a b c]; cbn [Schedule.enter];
        try discriminate He.
      - rewrite on_instance_run, OnIdle_run, Hoff. cbn. repeat split; assumption.
      - rewrite on_instance_run, Halt_run. cbn.
        split; [exact Hoff |]. repeat split; congruence.
      - rewrite on_instance_run, NotifyOfEvent_run. cbn. repeat split; assumption.
      - rewrite on_instance_run, steppers_idle_timeout_run. cbn.
        repeat split; assumption.
      - unfold read_user_buttons_callback. rewrite after_bind_result.
        cbn [St.after St.result St.gets fst snd]. rewrite Hoff. cbn.
        repeat split; assumption. }
    destruct Hstep as (S1 & S2 & S3 & S4).
    destruct (IH (St.after (Schedule.enter e) p) S1 Hrest) as (I1 & I2 & I3 & I4).
    split; [exact I1 |]. split; [rewrite I2; exact S2 |].
    split; [rewrite I3; exact S3 |].
    intros Hnohalt. apply Bool.orb_false_iff in Hnohalt.
    destruct Hnohalt as [Hh Hr].
    destruct (S4 Hh) as (T1 & T2 & T3 & T4).
    destruct (I4 Hr) as (J1 & J2 & J3 & J4).
    repeat split; congruence.
Qed.

End ScheduleFacts.

(** On the bench machine right after construction: idle passes, button
    runs with every button held and the counters at the firing point, a
    limit interrupt and an idle timeout.  No event, no counter moved, and
    the three queued Blocks are still there. *)
Lemma nothing_before_startup_witness :
  (MachineCore.m_startup_finished (MachineCore.instance poll_at_power_on) = false /\
   forallb (fun e => negb (Schedule.is_startup e))
     [Schedule.Enter_OnIdle; Schedule.Enter_read_user_buttons_callback 0 0 0;
      Schedule.Enter_NotifyOfEvent 64 GPIO_PIN_SET GPIO_PIN_SET;
      Schedule.Enter_steppers_idle_timeout_callback;
      Schedule.Enter_read_user_buttons_callback 0 0 0; Schedule.Enter_OnIdle]
   = true) /\
  MachineCore.m_input_events_group
    (MachineCore.instance
       (St.after
          (Schedule.enter_all
             [Schedule.Enter_OnIdle; Schedule.Enter_read_user_buttons_callback 0 0 0;
              Schedule.Enter_NotifyOfEvent 64 GPIO_PIN_SET GPIO_PIN_SET;
              Schedule.Enter_steppers_idle_timeout_callback;
              Schedule.Enter_read_user_buttons_callback 0 0 0; Schedule.Enter_OnIdle])
          poll_at_power_on))
  = 0 /\
  Conveyor.queue
    (MachineCore.m_conveyor
       (MachineCore.instance
          (St.after
             (Schedule.enter_all
                [Schedule.Enter_OnIdle; Schedule.Enter_read_user_buttons_callback 0 0 0;
                 Schedule.Enter_NotifyOfEvent 64 GPIO_PIN_SET GPIO_PIN_SET;
                 Schedule.Enter_steppers_idle_timeout_callback;
                 Schedule.Enter_read_user_buttons_callback 0 0 0;
                 Schedule.Enter_OnIdle])
             poll_at_power_on)))
  = [1000; 1000; 1000].
Proof.
  assert (Hoff : MachineCore.m_startup_finished
                   (MachineCore.instance poll_at_power_on) = false) by reflexivity.
  assert (Hes : forallb (fun e => negb (Schedule.is_startup e))
     [Schedule.Enter_OnIdle; Schedule.Enter_read_user_buttons_callback 0 0 0;
      Schedule.Enter_NotifyOfEvent 64 GPIO_PIN_SET GPIO_PIN_SET;
      Schedule.Enter_steppers_idle_timeout_callback;
      Schedule.Enter_read_user_buttons_callback 0 0 0; Schedule.Enter_OnIdle]
   = true) by reflexivity.
  split; [split; assumption |].
  destruct (@nothing_before_startup bench _ poll_at_power_on Hoff Hes)
    as (_ & Hev & _ & Hrest).
  split; [rewrite Hev; reflexivity |].
  destruct (Hrest eq_refl) as (Hconv & _). rewrite Hconv. reflexivity.
Defined.

(** ** Polling the buttons around a Halt *)

Section PollAndHalt.
Context {X : MachineCore.Externals}.
Import MachineCore.

Lemma read_user_buttons_run (START_IDR HOLD_IDR ABORT_IDR : Z) (p : ButtonPoll) :
  St.after (read_user_buttons_callback START_IDR HOLD_IDR ABORT_IDR) p
  = if m_startup_finished (instance p)
    then Schedule.block_effect 2 ABORT_IDR BTN_ABORT_Pin BTN_ABORT_EVENT
           (Schedule.block_effect 1 HOLD_IDR BTN_HOLD_Pin BTN_HOLD_EVENT
              (Schedule.block_effect 0 START_IDR BTN_START_Pin BTN_START_EVENT p))
    else p.
Proof.
  unfold read_user_buttons_callback. rewrite after_bind_result.
  cbn [St.after St.result St.gets snd fst].
  destruct (m_startup_finished (instance p)); cbn [Bool.eqb]; [| reflexivity].
  rewrite !after_bind.
  rewrite (button_block_run 0), (button_block_run 1), (button_block_run 2).
  reflexivity.
Qed.

(** A change to the machine that leaves the startup flag and the event
    group alone, and does the same whatever the event group holds, can
    be made before or after a run of the button callback. *)
Lemma callback_commutes (f : MachineCore.t -> MachineCore.t)
    (START_IDR HOLD_IDR ABORT_IDR : Z) (p : ButtonPoll) :
  (forall m, m_startup_finished (f m) = m_startup_finished m) ->
  (forall m, m_input_events_group (f m) = m_input_events_group m) ->
  (forall e m, f (set_input_events_group e m) = set_input_events_group e (f m)) ->
  St.after (read_user_buttons_callback START_IDR HOLD_IDR ABORT_IDR)
    (Schedule.on_machine f p)
  = Schedule.on_machine f
      (St.after (read_user_buttons_callback START_IDR HOLD_IDR ABORT_IDR) p).
Proof.
  intros Hflag Hev Hset.
  assert (Hblock : forall i idr pin event q,
            Schedule.block_effect i idr pin event (Schedule.on_machine f q)
            = Schedule.on_machine f (Schedule.block_effect i idr pin event q)).
  { intros i idr pin event q. unfold Schedule.block_effect, Schedule.on_machine.
    cbn [instance debounce_cntrs]. rewrite Hev, Hset. reflexivity. }
  rewrite !read_user_buttons_run.
  unfold Schedule.on_machine at 1. cbn [instance]. rewrite Hflag.
  destruct (m_startup_finished (instance p)); [| reflexivity].
  fold (Schedule.on_machine f p). rewrite !Hblock. reflexivity.
Qed.

Lemma button_polls_commute (f : MachineCore.t -> MachineCore.t)
    (reads : list (Z * Z * Z)) (p : ButtonPoll) :
  (forall m, m_startup_finished (f m) = m_startup_finished m) ->
  (forall m, m_input_events_group (f m) = m_input_events_group m) ->
  (forall e m, f (set_input_events_group e m) = set_input_events_group e (f m)) ->
  St.after (Schedule.button_polls reads) (Schedule.on_machine f p)
  = Schedule.on_machine f (St.after (Schedule.button_polls reads) p).
Proof.
  intros Hflag Hev Hset. revert p.
  induction reads as [| [[a b] c] rest IH]; intros p; [reflexivity |].
  cbn [Schedule.button_polls]. rewrite !after_bind.
  rewrite callback_commutes by assumption. apply IH.
Qed.

(** X8. A [Halt()], or an expiry of the stepper idle timer, can come
    before or after any series of runs of the button callback with the
    same outcome: the polls raise the same events and leave the same
    counters on a halted machine as on a running one, and the Halt does
    to the machine what it would have done without them. *)
Theorem button_polls_commute_with_Halt (reads : list (Z * Z * Z)) (p : ButtonPoll) :
  St.after (Schedule.button_polls reads) (St.after (on_instance Halt) p)
  = St.after (on_instance Halt) (St.after (Schedule.button_polls reads) p) /\
  St.after (Schedule.button_polls reads)
    (St.after (on_instance steppers_idle_timeout_callback) p)
  = St.after (on_instance steppers_idle_timeout_callback)
      (St.after (Schedule.button_polls reads) p).
Proof.
  assert (Hlift : forall (c : St.M MachineCore.t unit) q,
            St.after (on_instance c) q = Schedule.on_machine (St.after c) q).
  { intros c q. unfold St.after, on_instance, Schedule.on_machine.
    rewrite zoom_run. reflexivity. }
  rewrite !Hlift. split; apply button_polls_commute; intros.
  - rewrite Halt_run. reflexivity.
  - rewrite Halt_run. reflexivity.
  - rewrite !Halt_run. reflexivity.
  - unfold St.after, steppers_idle_timeout_callback, on_step_ticker.
    rewrite zoom_run. reflexivity.
  - unfold St.after, steppers_idle_timeout_callback, on_step_ticker.
    rewrite zoom_run. reflexivity.
  - unfold St.after, steppers_idle_timeout_callback, on_step_ticker.
    rewrite !zoom_run. reflexivity.
Qed.

End PollAndHalt.

(** ** GPIO set-up *)

Section GpioFacts.
Context {P : Gpio.Pins}.
Import Gpio.

Lemma Port_eqb_eq (p q : Port) : Port_eqb p q = true <-> p = q.
Proof.
  unfold Port_eqb. rewrite Z.eqb_eq. split; [| intros ->; reflexivity].
  destruct p, q; cbn; intros H; try reflexivity; discriminate H.
Qed.

Lemma Port_eqb_refl (p : Port) : Port_eqb p p = true.
Proof. apply Port_eqb_eq. reflexivity. Qed.

Lemma Port_eqb_neq (p q : Port) : p <> q -> Port_eqb p q = false.
Proof.
  intros H. destruct (Port_eqb p q) eqn:E; [| reflexivity].
  apply Port_eqb_eq in E. contradiction.
Qed.

(** [Init_GPIO_Pins] is its three tables of calls, run one after the
    other, and the priority setting. *)
Lemma Init_GPIO_Pins_tables (h : Hw) :
  St.after Init_GPIO_Pins h
  = St.after
      (HAL_NVIC_SetPriority_EXTI9_5 configLIBRARY_MAX_SYSCALL_INTERRUPT_PRIORITY 0)
      (run_inits gpio_inits (run_writes gpio_writes (run_clocks gpio_clocks h))).
Proof.
  cbv [St.after St.bind St.zoom St.modify St.gets St.ret St.result on_hw
       Init_GPIO_Pins Init_GPIO_Pins_body init_port
       assign_Pin assign_Mode assign_Pull assign_Speed
       HAL_RCC_GPIO_CLK_ENABLE HAL_GPIO_WritePin HAL_GPIO_Init
       HAL_NVIC_SetPriority_EXTI9_5
       run_inits run_writes run_clocks gpio_inits gpio_writes gpio_clocks fold_left
       hw GPIO_InitStruct Pin Mode Pull Speed
       clock_enabled ODR setup EXTI9_5_priority EXTI9_5_enabled snd fst].
  reflexivity.
Qed.

(** What each table leaves alone. *)
Lemma run_clocks_keeps (ps : list Port) (h : Hw) :
  ODR (run_clocks ps h) = ODR h /\ setup (run_clocks ps h) = setup h /\
  EXTI9_5_priority (run_clocks ps h) = EXTI9_5_priority h /\
  EXTI9_5_enabled (run_clocks ps h) = EXTI9_5_enabled h.
Proof.
  revert h. induction ps as [| p r IH]; intros h; [repeat split |].
  cbn [run_clocks fold_left]. exact (IH _).
Qed.

Lemma run_writes_keeps (ws : list (Port * Z * GPIO_PinState)) (h : Hw) :
  clock_enabled (run_writes ws h) = clock_enabled h /\
  setup (run_writes ws h) = setup h /\
  EXTI9_5_priority (run_writes ws h) = EXTI9_5_priority h /\
  EXTI9_5_enabled (run_writes ws h) = EXTI9_5_enabled h.
Proof.
  revert h. induction ws as [| w r IH]; intros h; [repeat split |].
  cbn [run_writes fold_left]. exact (IH _).
Qed.

Lemma run_inits_keeps (es : list (Port * GPIO_InitTypeDef)) (h : Hw) :
  clock_enabled (run_inits es h) = clock_enabled h /\
  ODR (run_inits es h) = ODR h /\
  EXTI9_5_priority (run_inits es h) = EXTI9_5_priority h /\
  EXTI9_5_enabled (run_inits es h) = EXTI9_5_enabled h.
Proof.
  revert h. induction es as [| e r IH]; intros h; [repeat split |].
  cbn [run_inits fold_left]. exact (IH _).
Qed.

Lemma run_clocks_clock (ps : list Port) (h : Hw) (p : Port) :
  clock_enabled (run_clocks ps h) p
  = fold_left (fun b q => if Port_eqb p q then true else b) ps (clock_enabled h p).
Proof.
  revert h. induction ps as [| q r IH]; intros h; [reflexivity |].
  cbn [run_clocks fold_left]. exact (IH _).
Qed.

(** One output bit through a table of writes. *)
Lemma run_writes_bit (ws : list (Port * Z * GPIO_PinState)) (h : Hw) (p : Port) (i : Z) :
  0 <= i ->
  Z.testbit (ODR (run_writes ws h) p) i
  = fold_left (bit_after_write p i) ws (Z.testbit (ODR h p) i).
Proof.
  intros Hi. revert h. induction ws as [| [[q m] st] r IH]; intros h; [reflexivity |].
  cbn [run_writes fold_left]. fold (run_writes r). rewrite IH. f_equal.
  unfold bit_after_write, write_covers. cbn [fst snd St.after HAL_GPIO_WritePin
    St.modify ODR].
  destruct (Port_eqb p q), st; cbn [andb negb];
    rewrite ?Z.lor_spec, ?Z.land_spec, ?Z.lnot_spec by assumption;
    rewrite ?Bool.orb_false_r, ?Bool.andb_true_r; reflexivity.
Qed.

(** One pin's set-up through a table of [HAL_GPIO_Init] calls. *)
Lemma run_inits_setup (es : list (Port * GPIO_InitTypeDef)) (h : Hw) (p : Port) (i : Z) :
  setup (run_inits es h) p i = fold_left (setup_after_init p i) es (setup h p i).
Proof.
  revert h. induction es as [| e r IH]; intros h; [reflexivity |].
  cbn [run_inits fold_left]. fold (run_inits r). rewrite IH. reflexivity.
Qed.

Lemma NVIC_priority_keeps (a b : Z) (h : Hw) :
  ODR (St.after (HAL_NVIC_SetPriority_EXTI9_5 a b) h) = ODR h /\
  setup (St.after (HAL_NVIC_SetPriority_EXTI9_5 a b) h) = setup h /\
  clock_enabled (St.after (HAL_NVIC_SetPriority_EXTI9_5 a b) h) = clock_enabled h /\
  EXTI9_5_enabled (St.after (HAL_NVIC_SetPriority_EXTI9_5 a b) h) = EXTI9_5_enabled h /\
  EXTI9_5_priority (St.after (HAL_NVIC_SetPriority_EXTI9_5 a b) h) = Some (a, b).
Proof. repeat split. Qed.

Lemma Init_GPIO_Pins_bit (h : Hw) (p : Port) (i : Z) :
  0 <= i ->
  Z.testbit (ODR (St.after Init_GPIO_Pins h) p) i
  = fold_left (bit_after_write p i) gpio_writes (Z.testbit (ODR h p) i).
Proof.
  intros Hi. rewrite Init_GPIO_Pins_tables.
  destruct (NVIC_priority_keeps configLIBRARY_MAX_SYSCALL_INTERRUPT_PRIORITY 0
              (run_inits gpio_inits (run_writes gpio_writes (run_clocks gpio_clocks h))))
    as (-> & _).
  destruct (run_inits_keeps gpio_inits (run_writes gpio_writes (run_clocks gpio_clocks h)))
    as (_ & -> & _).
  rewrite run_writes_bit by assumption.
  destruct (run_clocks_keeps gpio_clocks h) as (-> & _). reflexivity.
Qed.

Lemma Init_GPIO_Pins_setup (h : Hw) (p : Port) (i : Z) :
  setup (St.after Init_GPIO_Pins h) p i
  = fold_left (setup_after_init p i) gpio_inits (setup h p i).
Proof.
  rewrite Init_GPIO_Pins_tables.
  destruct (NVIC_priority_keeps configLIBRARY_MAX_SYSCALL_INTERRUPT_PRIORITY 0
              (run_inits gpio_inits (run_writes gpio_writes (run_clocks gpio_clocks h))))
    as (_ & -> & _).
  rewrite run_inits_setup.
  destruct (run_writes_keeps gpio_writes (run_clocks gpio_clocks h)) as (_ & -> & _).
  destruct (run_clocks_keeps gpio_clocks h) as (_ & -> & _). reflexivity.
Qed.

Lemma to_uint16_high_bits (m i : Z) : 16 <= i -> Z.testbit (to_uint16 m) i = false.
Proof. intros H. unfold to_uint16. apply Z.mod_pow2_bits_high. lia. Qed.

Lemma apart_covers (p : Port) (m : Z) (q : Port) (n : Z) (i : Z) :
  apart p m q n -> Z.testbit (to_uint16 m) i = true ->
  Port_eqb p q && Z.testbit (to_uint16 n) i = false.
Proof.
  intros [Hne | Hland] Hm.
  - rewrite (Port_eqb_neq _ _ Hne). reflexivity.
  - assert (Hb : Z.testbit (Z.land (to_uint16 m) (to_uint16 n)) i = false)
      by (rewrite Hland; apply Z.bits_0).
    rewrite Z.land_spec, Hm in Hb. cbn in Hb. rewrite Hb. apply Bool.andb_false_r.
Qed.

(** X9. Whatever the pin assignment and whatever the output registers
    held before, after [Init_GPIO_Pins] the output-register bit of every
    STEP_ENABLE pin (on [STEP_ENABLE_GPIO_Port]) and of every SDCARD_CS
    pin is set; and the output-register bit of every STEP_RESET pin is
    clear provided STEP_RESET shares no pin with STEP_ENABLE or
    SDCARD_CS, the two lines written after it.  This is about the output
    registers only; which pins are outputs is in their set-up, and the
    source sets [STEP_ENABLE_Pin] up on GPIOC whatever
    [STEP_ENABLE_GPIO_Port] is. *)
Theorem Init_GPIO_Pins_driver_lines (h : Hw) :
  let h' := St.after Init_GPIO_Pins h in
  (forall i, 0 <= i -> Z.testbit (to_uint16 STEP_ENABLE_Pin) i = true ->
     Z.testbit (ODR h' STEP_ENABLE_GPIO_Port) i = true) /\
  (forall i, 0 <= i -> Z.testbit (to_uint16 SDCARD_CS_Pin) i = true ->
     Z.testbit (ODR h' SDCARD_CS_GPIO_Port) i = true) /\
  (apart STEP_RESET_GPIO_Port STEP_RESET_Pin STEP_ENABLE_GPIO_Port STEP_ENABLE_Pin ->
   apart STEP_RESET_GPIO_Port STEP_RESET_Pin SDCARD_CS_GPIO_Port SDCARD_CS_Pin ->
   forall i, 0 <= i -> Z.testbit (to_uint16 STEP_RESET_Pin) i = true ->
     Z.testbit (ODR h' STEP_RESET_GPIO_Port) i = false).
Proof.
  intros h'. subst h'. split; [| split].
  - intros i Hi Hpin. rewrite Init_GPIO_Pins_bit by assumption.
    cbn [fold_left gpio_writes]. unfold bit_after_write, write_covers. cbn [fst snd].
    rewrite Port_eqb_refl, Hpin. cbn [andb]. rewrite Bool.orb_true_r. reflexivity.
  - intros i Hi Hpin. rewrite Init_GPIO_Pins_bit by assumption.
    cbn [fold_left gpio_writes]. unfold bit_after_write, write_covers. cbn [fst snd].
    rewrite Port_eqb_refl, Hpin. cbn [andb]. apply Bool.orb_true_r.
  - intros Hen Hsd i Hi Hpin. rewrite Init_GPIO_Pins_bit by assumption.
    cbn [fold_left gpio_writes]. unfold bit_after_write, write_covers. cbn [fst snd].
    rewrite (apart_covers _ _ _ _ i Hen Hpin), (apart_covers _ _ _ _ i Hsd Hpin).
    rewrite Port_eqb_refl, Hpin. cbn [andb negb].
    rewrite Bool.andb_false_r. reflexivity.
Qed.

Lemma setup_fold_coherent (es : list (Port * GPIO_InitTypeDef)) (p : Port) (i : Z)
    (o : option PinSetup) :
  Forall (fun e => coherent (mkPinSetup (Mode (snd e)) (Pull (snd e)) (Speed (snd e)))
                   = true) es ->
  fold_left (setup_after_init p i) es o = o \/
  exists c, fold_left (setup_after_init p i) es o = Some c /\ coherent c = true.
Proof.
  intros Hes. revert o. induction Hes as [| e r He _ IH]; intros o; [left; reflexivity |].
  cbn [fold_left]. destruct (IH (setup_after_init p i o e)) as [Hsame | Hnew];
    [| right; exact Hnew].
  rewrite Hsame. unfold setup_after_init. destruct (init_covers e p i).
  - right. eexists. split; [reflexivity | exact He].
  - left. reflexivity.
Qed.

(** X10. Whatever the pin assignment, every pin that [Init_GPIO_Pins]
    sets up ends up coherent: low speed (also where the source leaves
    [Speed] as the previous call set it), no pull on the outputs, pull-up
    on the falling-edge interrupt inputs, pull-down on the rising-edge
    interrupt inputs and on the plain inputs.  Every other pin keeps the
    set-up it had. *)
Theorem Init_GPIO_Pins_setups_coherent (h : Hw) (p : Port) (i : Z) :
  setup (St.after Init_GPIO_Pins h) p i = setup h p i \/
  exists c, setup (St.after Init_GPIO_Pins h) p i = Some c /\ coherent c = true.
Proof.
  rewrite Init_GPIO_Pins_setup. apply setup_fold_coherent.
  unfold gpio_inits. repeat constructor.
Qed.

Lemma bit_fold_shape (ws : list (Port * Z * GPIO_PinState)) (p : Port) (i : Z) :
  exists A B, forall b, fold_left (bit_after_write p i) ws b = (b && A) || B.
Proof.
  induction ws as [| w r (A & B & IH)].
  - exists true, false. intros b. cbn. destruct b; reflexivity.
  - cbn [fold_left]. destruct (snd w) eqn:Est.
    + exists (negb (write_covers w p i) && A), B. intros b.
      rewrite IH. unfold bit_after_write. rewrite Est.
      destruct b, (write_covers w p i), A, B; reflexivity.
    + exists A, ((write_covers w p i && A) || B). intros b.
      rewrite IH. unfold bit_after_write. rewrite Est.
      destruct b, (write_covers w p i), A, B; reflexivity.
Qed.

Lemma setup_fold_shape (es : list (Port * GPIO_InitTypeDef)) (p : Port) (i : Z) :
  exists T, forall o,
    fold_left (setup_after_init p i) es o
    = match T with Some c => Some c | None => o end.
Proof.
  induction es as [| e r (T & IH)].
  - exists None. reflexivity.
  - cbn [fold_left]. destruct (init_covers e p i) eqn:Ec.
    + exists (match T with
              | Some c => Some c
              | None => Some (mkPinSetup (Mode (snd e)) (Pull (snd e)) (Speed (snd e)))
              end).
      intros o. rewrite IH. unfold setup_after_init. rewrite Ec.
      destruct T; reflexivity.
    + exists T. intros o. rewrite IH. unfold setup_after_init. rewrite Ec.
      reflexivity.
Qed.

Lemma clock_fold_shape (ps : list Port) (p : Port) :
  exists A, forall b,
    fold_left (fun b q => if Port_eqb p q then true else b) ps b = b || A.
Proof.
  induction ps as [| q r (A & IH)].
  - exists false. intros b. destruct b; reflexivity.
  - cbn [fold_left]. destruct (Port_eqb p q).
    + exists true. intros b. rewrite IH. destruct b, A; reflexivity.
    + exists A. exact IH.
Qed.

Lemma Init_GPIO_Pins_clock (h : Hw) (p : Port) :
  clock_enabled (St.after Init_GPIO_Pins h) p
  = fold_left (fun b q => if Port_eqb p q then true else b) gpio_clocks
      (clock_enabled h p).
Proof.
  rewrite Init_GPIO_Pins_tables.
  destruct (NVIC_priority_keeps configLIBRARY_MAX_SYSCALL_INTERRUPT_PRIORITY 0
              (run_inits gpio_inits (run_writes gpio_writes (run_clocks gpio_clocks h))))
    as (_ & _ & -> & _).
  destruct (run_inits_keeps gpio_inits (run_writes gpio_writes (run_clocks gpio_clocks h)))
    as (-> & _).
  destruct (run_writes_keeps gpio_writes (run_clocks gpio_clocks h)) as (-> & _).
  apply run_clocks_clock.
Qed.

Lemma Init_GPIO_Pins_nvic (h : Hw) :
  EXTI9_5_enabled (St.after Init_GPIO_Pins h) = EXTI9_5_enabled h /\
  EXTI9_5_priority (St.after Init_GPIO_Pins h)
  = Some (configLIBRARY_MAX_SYSCALL_INTERRUPT_PRIORITY, 0).
Proof.
  rewrite Init_GPIO_Pins_tables.
  destruct (NVIC_priority_keeps configLIBRARY_MAX_SYSCALL_INTERRUPT_PRIORITY 0
              (run_inits gpio_inits (run_writes gpio_writes (run_clocks gpio_clocks h))))
    as (_ & _ & _ & -> & ->).
  destruct (run_inits_keeps gpio_inits (run_writes gpio_writes (run_clocks gpio_clocks h)))
    as (_ & _ & _ & ->).
  destruct (run_writes_keeps gpio_writes (run_clocks gpio_clocks h)) as (_ & _ & _ & ->).
  destruct (run_clocks_keeps gpio_clocks h) as (_ & _ & _ & ->).
  split; reflexivity.
Qed.

(** X11. Running [Init_GPIO_Pins] a second time changes nothing:
    whatever the pin assignment and the state before, the output
    registers, every pin's set-up, the clock gates and the interrupt
    entry are after two runs what they are after one. *)
Theorem Init_GPIO_Pins_idempotent (h : Hw) :
  let once := St.after Init_GPIO_Pins h in
  let twice := St.after Init_GPIO_Pins once in
  (forall p, ODR twice p = ODR once p) /\
  (forall p i, setup twice p i = setup once p i) /\
  (forall p, clock_enabled twice p = clock_enabled once p) /\
  EXTI9_5_priority twice = EXTI9_5_priority once /\
  EXTI9_5_enabled twice = EXTI9_5_enabled once.
Proof.
  intros once twice. subst twice once.
  split; [| split; [| split; [| split]]].
  - intros p. apply Z.bits_inj'. intros i Hi.
    rewrite !Init_GPIO_Pins_bit by assumption.
    destruct (bit_fold_shape gpio_writes p i) as (A & B & HAB).
    rewrite !HAB. destruct (Z.testbit (ODR h p) i), A, B; reflexivity.
  - intros p i. rewrite !Init_GPIO_Pins_setup.
    destruct (setup_fold_shape gpio_inits p i) as (T & HT).
    rewrite !HT. destruct T; reflexivity.
  - intros p. rewrite !Init_GPIO_Pins_clock.
    destruct (clock_fold_shape gpio_clocks p) as (A & HA).
    rewrite !HA. destruct (clock_enabled h p), A; reflexivity.
  - destruct (Init_GPIO_Pins_nvic h) as (_ & ->).
    destruct (Init_GPIO_Pins_nvic (St.after Init_GPIO_Pins h)) as (_ & ->). reflexivity.
  - destruct (Init_GPIO_Pins_nvic (St.after Init_GPIO_Pins h)) as (-> & _). reflexivity.
Qed.

Lemma bit_fold_uncovered (ws : list (Port * Z * GPIO_PinState)) (p : Port) (i : Z)
    (b : bool) :
  Forall (fun w => write_covers w p i = false) ws ->
  fold_left (bit_after_write p i) ws b = b.
Proof.
  intros H. revert b. induction H as [| w r Hw _ IH]; intros b; [reflexivity |].
  cbn [fold_left]. rewrite IH. unfold bit_after_write. rewrite Hw.
  destruct (snd w), b; reflexivity.
Qed.

Lemma setup_fold_uncovered (es : list (Port * GPIO_InitTypeDef)) (p : Port) (i : Z)
    (o : option PinSetup) :
  Forall (fun e => init_covers e p i = false) es ->
  fold_left (setup_after_init p i) es o = o.
Proof.
  intros H. revert o. induction H as [| e r He _ IH]; intros o; [reflexivity |].
  cbn [fold_left]. rewrite IH. unfold setup_after_init. rewrite He. reflexivity.
Qed.

(** X12. What [Init_GPIO_Pins] never touches, whatever the pin
    assignment: it does not enable the EXTI9_5 interrupt (it only sets
    its priority); of the clock gates it opens those of GPIOA..GPIOH
    and leaves the others; it changes no output bit above bit 15 and no
    set-up outside pins 0..15; and a port that is none of GPIOB, GPIOC,
    GPIOF and the six ports named by the pin macros keeps its output
    register and every pin set-up. *)
Theorem Init_GPIO_Pins_frame (h : Hw) :
  let h' := St.after Init_GPIO_Pins h in
  EXTI9_5_enabled h' = EXTI9_5_enabled h /\
  EXTI9_5_priority h' = Some (configLIBRARY_MAX_SYSCALL_INTERRUPT_PRIORITY, 0) /\
  (forall p, clock_enabled h' p = if index p <? 8 then true else clock_enabled h p) /\
  (forall p i, 16 <= i -> Z.testbit (ODR h' p) i = Z.testbit (ODR h p) i) /\
  (forall p i, i < 0 \/ 16 <= i -> setup h' p i = setup h p i) /\
  (forall p,
     ~ In p [GPIOB; GPIOC; GPIOF; CTOUCH_SDA_GPIO_Port; STEP_RESET_GPIO_Port;
             STEP_ENABLE_GPIO_Port; SDCARD_CS_GPIO_Port; GLOBAL_FAULT_GPIO_Port;
             PROBE_INPUT_GPIO_Port] ->
     ODR h' p = ODR h p /\ forall i, setup h' p i = setup h p i).
Proof.
  intros h'. subst h'.
  destruct (Init_GPIO_Pins_nvic h) as (Hen & Hpr).
  split; [exact Hen |]. split; [exact Hpr |]. split; [| split; [| split]].
  - intros p. rewrite Init_GPIO_Pins_clock. destruct p; reflexivity.
  - intros p i Hi. rewrite Init_GPIO_Pins_bit by lia.
    apply bit_fold_uncovered. unfold gpio_writes.
    repeat constructor; unfold write_covers; cbn [fst snd];
      rewrite to_uint16_high_bits by assumption; apply Bool.andb_false_r.
  - intros p i Hi. rewrite Init_GPIO_Pins_setup.
    apply setup_fold_uncovered. unfold gpio_inits.
    assert (Hout : (0 <=? i) && (i <? 16) = false).
    { destruct Hi as [Hneg | Hbig].
      - destruct (Z.leb_spec 0 i); [lia | reflexivity].
      - destruct (Z.ltb_spec i 16); [lia | apply Bool.andb_false_r]. }
    repeat constructor; unfold init_covers; cbn [fst snd];
      rewrite Hout, Bool.andb_false_r; reflexivity.
  - intros p Hp. cbn [In] in Hp.
    assert (HB : Port_eqb p GPIOB = false) by (apply Port_eqb_neq; intuition congruence).
    assert (HC : Port_eqb p GPIOC = false) by (apply Port_eqb_neq; intuition congruence).
    assert (HF : Port_eqb p GPIOF = false) by (apply Port_eqb_neq; intuition congruence).
    assert (H1 : Port_eqb p CTOUCH_SDA_GPIO_Port = false)
      by (apply Port_eqb_neq; intuition congruence).
    assert (H2 : Port_eqb p STEP_RESET_GPIO_Port = false)
      by (apply Port_eqb_neq; intuition congruence).
    assert (H3 : Port_eqb p STEP_ENABLE_GPIO_Port = false)
      by (apply Port_eqb_neq; intuition congruence).
    assert (H4 : Port_eqb p SDCARD_CS_GPIO_Port = false)
      by (apply Port_eqb_neq; intuition congruence).
    assert (H5 : Port_eqb p GLOBAL_FAULT_GPIO_Port = false)
      by (apply Port_eqb_neq; intuition congruence).
    assert (H6 : Port_eqb p PROBE_INPUT_GPIO_Port = false)
      by (apply Port_eqb_neq; intuition congruence).
    split.
    + apply Z.bits_inj'. intros i Hi. rewrite Init_GPIO_Pins_bit by assumption.
      apply bit_fold_uncovered. unfold gpio_writes.
      repeat constructor; unfold write_covers; cbn [fst snd];
        rewrite ?HB, ?HC, ?HF, ?H1, ?H2, ?H3, ?H4; reflexivity.
    + intros i. rewrite Init_GPIO_Pins_setup.
      apply setup_fold_uncovered. unfold gpio_inits.
      repeat constructor; unfold init_covers; cbn [fst snd];
        rewrite ?HB, ?HC, ?HF, ?H1, ?H2, ?H3, ?H4, ?H5, ?H6; reflexivity.
Qed.

End GpioFacts.

(** On the board of the source's comments, from the hardware at reset:
    STEP_RESET is PG7 and ends low, STEP_ENABLE is PC9 and ends high. *)
Lemma Init_GPIO_Pins_driver_lines_witness :
  (Gpio.apart (@Gpio.STEP_RESET_GPIO_Port board) (@Gpio.STEP_RESET_Pin board)
     (@Gpio.STEP_ENABLE_GPIO_Port board) (@Gpio.STEP_ENABLE_Pin board) /\
   Gpio.apart (@Gpio.STEP_RESET_GPIO_Port board) (@Gpio.STEP_RESET_Pin board)
     (@Gpio.SDCARD_CS_GPIO_Port board) (@Gpio.SDCARD_CS_Pin board)) /\
  Z.testbit
    (Gpio.ODR (St.after (@Gpio.Init_GPIO_Pins board) hw_at_reset) Gpio.GPIOC) 9
  = true /\
  Z.testbit
    (Gpio.ODR (St.after (@Gpio.Init_GPIO_Pins board) hw_at_reset) Gpio.GPIOG) 7
  = false.
Proof.
  assert (H1 : Gpio.apart (@Gpio.STEP_RESET_GPIO_Port board) (@Gpio.STEP_RESET_Pin board)
                 (@Gpio.STEP_ENABLE_GPIO_Port board) (@Gpio.STEP_ENABLE_Pin board))
    by (right; reflexivity).
  assert (H2 : Gpio.apart (@Gpio.STEP_RESET_GPIO_Port board) (@Gpio.STEP_RESET_Pin board)
                 (@Gpio.SDCARD_CS_GPIO_Port board) (@Gpio.SDCARD_CS_Pin board))
    by (right; reflexivity).
  split; [split; assumption |].
  destruct (@Init_GPIO_Pins_driver_lines board hw_at_reset) as (Hen & _ & Hrst).
  split.
  - apply (Hen 9); [lia | reflexivity].
  - apply (Hrst H1 H2 7); [lia | reflexivity].
Defined.
